(** * scrape_metrics: a shallow embedding of the host-metrics sampler

    The repository holds five variants of one script.  Each run samples
    CPU and memory, ranks processes, reads the nginx stub-status page,
    turns the cumulative request counter into a rate with the help of a
    small state file, and appends one [;]-separated record.

    Conventions of the embedding:
    - a Python [str] is a [string]; its characters are the code points
      below 256, which is where every character the scripts test for
      (white space, digits, signs, the literal markers) lives;
    - a Python [int] is a [Z];
    - a Python [float] is a rational ([Q]): comparisons, subtraction and
      division are exact, so rounding, overflow and the non-finite
      values of IEEE arithmetic are outside the model (only the
      [float()] conversion keeps [inf] and [nan] apart, because the
      text decides them);
    - a call that can raise returns a [result]; [try]/[except] is
      [try_except] with the list of exceptions the clause names;
    - the state file and the clock are passed explicitly.

    The primitives of Python come first ([Py], [PyFormat], [PyFloat]),
    then what a run observes, then one module for each source file,
    then the notions the specification speaks in, then the proofs. *)

From Stdlib Require Import ZArith QArith List String Ascii Bool Lia.
From Stdlib Require Import Permutation Sorted DecimalString.
Import ListNotations.

Open Scope string_scope.
Open Scope Z_scope.

(** ** Exceptions and the result monad *)

Inductive exn : Type :=
| ValueError
| IndexError
| TypeError
| AttributeError
| ZeroDivisionError
| JSONDecodeError
| FileNotFoundError
| PermissionError
| UnicodeDecodeError.

Definition exn_eqb (a b : exn) : bool :=
  match a, b with
  | ValueError, ValueError
  | IndexError, IndexError
  | TypeError, TypeError
  | AttributeError, AttributeError
  | ZeroDivisionError, ZeroDivisionError
  | JSONDecodeError, JSONDecodeError
  | FileNotFoundError, FileNotFoundError
  | PermissionError, PermissionError
  | UnicodeDecodeError, UnicodeDecodeError => true
  | _, _ => false
  end.

Inductive result (A : Type) : Type :=
| Ret (a : A)
| Raise (e : exn).

Arguments Ret {A} a.
Arguments Raise {A} e.

Definition bind {A B : Type} (m : result A) (k : A -> result B) : result B :=
  match m with
  | Ret a => k a
  | Raise e => Raise e
  end.

Notation "x <- m ;; k" := (bind m (fun x => k))
  (at level 61, m at next level, right associativity).

(** [try: m except (e1, e2, ...): h] *)
Definition try_except {A : Type} (m : result A) (caught : list exn)
    (handler : result A) : result A :=
  match m with
  | Ret a => Ret a
  | Raise e => if existsb (exn_eqb e) caught then handler else Raise e
  end.

Definition Qltb (x y : Q) : bool := negb (Qle_bool y x).

(** ** Python string primitives *)

Module Py.

(** [str.isspace] on one character: TAB..CR, FS..US and SPACE, NEL, NBSP. *)
Definition isspace (c : ascii) : bool :=
  let n := nat_of_ascii c in
  ((9 <=? n) && (n <=? 13) || (28 <=? n) && (n <=? 32)
   || (n =? 133) || (n =? 160))%nat.

Definition isdigit (c : ascii) : bool :=
  let n := nat_of_ascii c in ((48 <=? n) && (n <=? 57))%nat.

Definition digit_val (c : ascii) : Z := Z.of_nat (nat_of_ascii c) - 48.

(** [s.lstrip()], [s.rstrip()], [s.strip()] *)
Fixpoint lstrip (s : string) : string :=
  match s with
  | String c r => if isspace c then lstrip r else s
  | EmptyString => EmptyString
  end.

Fixpoint rstrip (s : string) : string :=
  match s with
  | String c r =>
      match rstrip r with
      | EmptyString => if isspace c then EmptyString else String c EmptyString
      | r' => String c r'
      end
  | EmptyString => EmptyString
  end.

Definition strip (s : string) : string := rstrip (lstrip s).

(** [s.startswith(p)] *)
Fixpoint startswith (p s : string) : bool :=
  match p, s with
  | EmptyString, _ => true
  | String a p', String b s' => Ascii.eqb a b && startswith p' s'
  | String _ _, EmptyString => false
  end.

(** [s.split(sep)] for a one-character separator: never empty. *)
Fixpoint split_on (sep : ascii) (s : string) : list string :=
  match s with
  | EmptyString => [EmptyString]
  | String c r =>
      if Ascii.eqb c sep then EmptyString :: split_on sep r
      else match split_on sep r with
           | f :: fs => String c f :: fs
           | [] => [String c EmptyString]
           end
  end.

(** [sep.join(l)] *)
Fixpoint join (sep : string) (l : list string) : string :=
  match l with
  | [] => EmptyString
  | [x] => x
  | x :: rest => x ++ sep ++ join sep rest
  end.

(** One non-space character [c] in front of the text [r], whose fields
    are [fs]: [c] opens a field of its own when [r] is empty or starts
    with white space, and extends the first field of [r] otherwise. *)
Definition push_char (c : ascii) (r : string) (fs : list string) : list string :=
  match r, fs with
  | String c' _, f :: fs' =>
      if isspace c' then String c EmptyString :: fs else String c f :: fs'
  | _, _ => String c EmptyString :: fs
  end.

(** [s.split()]: the maximal runs of non-space characters. *)
Fixpoint split (s : string) : list string :=
  match s with
  | EmptyString => []
  | String c r => if isspace c then split r else push_char c r (split r)
  end.

(** [s.split(None, maxsplit)]: at most [maxsplit] fields are cut off;
    what follows them, without its leading white space but with its
    trailing white space, is the last field.  [infield] tells that the
    character before [s] belongs to a field that is still open. *)
Fixpoint split_max_from (maxsplit : nat) (infield : bool) (s : string)
    : list string :=
  match s with
  | EmptyString => []
  | String c r =>
      if isspace c then split_max_from maxsplit false r
      else if infield then push_char c r (split_max_from maxsplit true r)
      else match maxsplit with
           | O => [s]
           | S m => push_char c r (split_max_from m true r)
           end
  end.

Definition split_max (maxsplit : nat) (s : string) : list string :=
  split_max_from maxsplit false s.

(** Digits with single underscores between them, as [int()] and
    [float()] accept them; [after_digit] tells that the previous
    character was a digit.  Returns the value and the digit count. *)
Fixpoint digitpart (acc : Z) (count : nat) (after_digit : bool) (s : string)
    : option (Z * nat) :=
  match s with
  | EmptyString => if after_digit then Some (acc, count) else None
  | String c r =>
      if isdigit c then digitpart (10 * acc + digit_val c) (S count) true r
      else if Ascii.eqb c "_" then
        if after_digit then digitpart acc count false r else None
      else None
  end.

(** The sign in front of a numeric literal. *)
Definition take_sign (s : string) : bool * string :=
  match s with
  | String "-" r => (true, r)
  | String "+" r => (false, r)
  | _ => (false, s)
  end.

(** [int(tok)] for a token without white space: [ValueError] unless the
    token is an optionally signed decimal literal.  (The cap that recent
    interpreters put on the length of the literal, 4300 digits unless
    configured otherwise, is not modelled.) *)
Definition int (tok : string) : result Z :=
  let (neg, body) := take_sign tok in
  match digitpart 0 0 false body with
  | Some (v, _) => Ret (if neg then - v else v)
  | None => Raise ValueError
  end.

(** [str(n)] for an [int]. *)
Definition str_of_int (n : Z) : string := NilZero.string_of_int (Z.to_int n).

(** [l[i]] *)
Definition index {A : Type} (l : list A) (i : nat) : result A :=
  match nth_error l i with
  | Some a => Ret a
  | None => Raise IndexError
  end.

(** [l[:n]] for an [int] bound, negative bounds counting from the end. *)
Definition slice_to {A : Type} (n : Z) (l : list A) : list A :=
  if n <? 0 then firstn (Z.to_nat (Z.of_nat (List.length l) + n)) l
  else firstn (Z.to_nat n) l.

End Py.

(** [f"{x:.Nf}"]: the value rounded to [N] decimals, ties going to the
    even neighbour, with a sign for a negative value. *)
Module PyFormat.

Definition digit_char (d : Z) : ascii := ascii_of_nat (48 + Z.to_nat d).

Fixpoint fixed_digits (width : nat) (n : Z) : string :=
  match width with
  | O => EmptyString
  | S w => String (digit_char ((n / 10 ^ Z.of_nat w) mod 10)) (fixed_digits w n)
  end.

Definition round_half_even (num den : Z) : Z :=
  let q := num / den in
  let r := num mod den in
  if 2 * r <? den then q
  else if den <? 2 * r then q + 1
  else if Z.even q then q else q + 1.

Definition format_fixed (decimals : nat) (x : Q) : string :=
  let scale := 10 ^ Z.of_nat decimals in
  let n := round_half_even (Z.abs (Qnum x) * scale) (Zpos (Qden x)) in
  (if Qnum x <? 0 then "-" else "")
  ++ Py.str_of_int (n / scale)
  ++ match decimals with
     | O => ""
     | S _ => "." ++ fixed_digits decimals (n mod scale)
     end.


End PyFormat.

(** The value of [float(tok)]: a rational, or one of the non-finite
    values that the literals [inf], [infinity] and [nan] denote. *)
Inductive pyfloat : Type :=
| Finite (x : Q)
| Infinity (negative : bool)
| NaN.

Module PyFloat.

Definition lower_char (c : ascii) : ascii :=
  let n := nat_of_ascii c in
  if ((65 <=? n) && (n <=? 90))%nat then ascii_of_nat (n + 32) else c.

Fixpoint lower (s : string) : string :=
  match s with
  | EmptyString => EmptyString
  | String c r => String (lower_char c) (lower r)
  end.

(** The text before the first character that satisfies [p], and the
    text after it when there is one. *)
Fixpoint cut_at (p : ascii -> bool) (s : string) : string * option string :=
  match s with
  | EmptyString => (EmptyString, None)
  | String c r =>
      if p c then (EmptyString, Some r)
      else let (a, b) := cut_at p r in (String c a, b)
  end.

(** A digit part that may be missing: value and number of digits. *)
Definition optional_digitpart (s : string) : option (Z * nat) :=
  match s with
  | EmptyString => Some (0, 0%nat)
  | _ => Py.digitpart 0 0 false s
  end.

(** [digitpart "." [digitpart]], [[digitpart] "." digitpart] or
    [digitpart]: the value and the number of decimals. *)
Definition mantissa (s : string) : option (Z * nat) :=
  match cut_at (Ascii.eqb ".") s with
  | (whole, None) => 
      match Py.digitpart 0 0 false whole with
      | Some (v, _) => Some (v, 0%nat)
      | None => None
      end
  | (whole, Some frac) =>
      match whole, frac with
      | EmptyString, EmptyString => None
      | _, _ =>
          match optional_digitpart whole, optional_digitpart frac with
          | Some (w, _), Some (f, k) => Some (w * 10 ^ Z.of_nat k + f, k)
          | _, _ => None
          end
      end
  end.

(** [("e" | "E") ["+" | "-"] digitpart] *)
Definition exponent (s : option string) : option Z :=
  match s with
  | None => Some 0
  | Some e =>
      let (neg, body) := Py.take_sign e in
      match Py.digitpart 0 0 false body with
      | Some (v, _) => Some (if neg then - v else v)
      | None => None
      end
  end.

Definition pow10 (e : Z) : Q :=
  if e <? 0 then 1 # Z.to_pos (10 ^ (- e)) else inject_Z (10 ^ e).

Definition number (s : string) : option Q :=
  let (m, e) := cut_at (fun c => Ascii.eqb c "e" || Ascii.eqb c "E") s in
  match mantissa m, exponent e with
  | Some (digits, decimals), Some e =>
      Some (inject_Z digits * pow10 (e - Z.of_nat decimals))%Q
  | _, _ => None
  end.

(** [float(tok)] for a token without white space. *)
Definition float (tok : string) : result pyfloat :=
  let (neg, body) := Py.take_sign tok in
  let word := lower body in
  if String.eqb word "inf" || String.eqb word "infinity" then
    Ret (Infinity neg)
  else if String.eqb word "nan" then Ret NaN
  else match number body with
       | Some x => Ret (Finite (if neg then - x else x)%Q)
       | None => Raise ValueError
       end.

Definition negative (x : Q) : bool := Qltb x 0.

(** [a / b]: a zero divisor raises, whatever the dividend. *)
Definition div (a b : pyfloat) : result pyfloat :=
  match b with
  | Finite y =>
      if Qeq_bool y 0 then Raise ZeroDivisionError
      else match a with
           | Finite x => Ret (Finite (x / y))
           | Infinity s => Ret (Infinity (xorb s (negative y)))
           | NaN => Ret NaN
           end
  | Infinity _ =>
      match a with
      | Finite _ => Ret (Finite 0)
      | _ => Ret NaN
      end
  | NaN => Ret NaN
  end.

(** [a * k] for a positive constant [k]. *)
Definition scale (a : pyfloat) (k : Q) : pyfloat :=
  match a with
  | Finite x => Finite (x * k)
  | other => other
  end.

End PyFloat.

(** ** What a run observes *)

(** Outcome of [requests.get(url, timeout=...)] followed by
    [raise_for_status()]: the body text, or a transport / HTTP failure. *)
Inductive fetch : Type :=
| FetchFailed
| Fetched (body : string).

Definition LF : ascii := "010"%char.
Definition unlines (l : list string) : string := Py.join (String LF "") l.

Definition active_marker : string := "Active connections:".

(** The value [json.load] returns. *)
#[warnings="-register-all"]
Inductive json : Type :=
| JNull
| JBool (b : bool)
| JInt (n : Z)
| JFloat (x : Q)
| JStr (s : string)
| JArr (items : list json)
| JObj (members : list (string * json)).   (* the items, each key once *)

(** [STATE_FILE] as one run finds it. *)
Inductive state_file : Type :=
| NoFile                   (* [os.path.isfile(STATE_FILE)] is false *)
| Unloadable (e : exn)     (* [open] or [json.load] raises [e] *)
| Holds (state : json).    (* [json.load] returns [state] *)

(** The file after [json.dump({"last_requests": ..., "last_time": ...}, f)]. *)
Definition saved (last_requests : Z) (last_time : Q) : state_file :=
  Holds (JObj [("last_requests", JInt last_requests);
               ("last_time", JFloat last_time)]).

(** [state.get(key, default)]: only a [dict] has the method. *)
Definition dict_get (state : json) (key : string) (default : json)
    : result json :=
  match state with
  | JObj members =>
      match find (fun kv => String.eqb (fst kv) key) members with
      | Some kv => Ret (snd kv)
      | None => Ret default
      end
  | _ => Raise AttributeError
  end.

(** The operand of [-] and [>] against a number: [int], [float] and
    [bool] take part, anything else is a [TypeError]. *)
Definition number (v : json) : result Q :=
  match v with
  | JInt n => Ret (inject_Z n)
  | JFloat x => Ret x
  | JBool b => Ret (if b then 1%Q else 0%Q)
  | _ => Raise TypeError
  end.

(** The failures of a per-process read that the scans absorb. *)
Inductive psutil_error : Type :=
| NoSuchProcess
| AccessDenied
| ZombieProcess.

Inductive read (A : Type) : Type :=
| Got (a : A)
| Failed (e : psutil_error).

Arguments Got {A} a.
Arguments Failed {A} e.

(** One process as [psutil.process_iter] yields it: the two entries of
    [proc.info] ([None] where psutil could not read them) and the
    outcomes of the two calls [proc.cpu_percent(None)] and
    [proc.memory_percent()]. *)
Record process : Type := {
  info_name : option string;
  info_memory_percent : option Q;
  cpu_percent : read Q;
  memory_percent : read Q
}.

Definition sample : Type := (string * Q)%type.

Definition sentinel : sample := ("-.", 0%Q).

(** [proc.info['name'] if proc.info['name'] else "-."] *)
Definition name_or_dash (proc : process) : string :=
  match info_name proc with
  | Some name => if String.eqb name "" then "-." else name
  | None => "-."
  end.

(** [l.sort(key=..., reverse=True)]: the stable sort into descending
    order of the key.  An element goes in front of the first later
    element whose key is not greater than its own, so elements of equal
    key keep the order they had. *)
Fixpoint insert_desc {A : Type} (key : A -> Q) (x : A) (l : list A) : list A :=
  match l with
  | [] => [x]
  | y :: rest =>
      if Qltb (key x) (key y) then y :: insert_desc key x rest else x :: l
  end.

Definition sort_desc {A : Type} (key : A -> Q) (l : list A) : list A :=
  fold_right (insert_desc key) [] l.

(** What one run of [scrape_metrics_psutil_reduced.py] observes. *)
Record invocation : Type := {
  timestamp : string;          (* [datetime.now().strftime(...)] *)
  cpu_usage : Q;               (* [psutil.cpu_percent(interval)] *)
  mem_usage : Q;               (* [psutil.virtual_memory().percent] *)
  cpu_scan : list process;     (* the scan of [get_top_processes_by_cpu] *)
  mem_scan : list process;     (* the scan of [get_top_processes_by_memory] *)
  response : fetch;            (* the status page *)
  now : Q;                     (* [time.time()] *)
  file : state_file            (* [STATE_FILE] *)
}.

(** ** [get_metrics_psutil.py] *)

Module get_metrics_psutil.

(** *** Lines 85-133: the status page.  The same text is in
    [t_scrape_metrics_psutil.py], [scrape_metrics_top.py] and
    [t_scrape_metrics_top.py]. *)

(** The [for line in lines] loop of lines 113-118, which leaves at the
    first line carrying the marker. *)
Fixpoint active_loop (lines : list string) (active_connections : Z)
    : result Z :=
  match lines with
  | [] => Ret active_connections
  | line :: rest =>
      if Py.startswith active_marker line then
        let parts := Py.split line in
        if (3 <=? List.length parts)%nat then
          p <- Py.index parts 2 ;; Py.int p
        else Ret active_connections
      else active_loop rest active_connections
  end.

Definition total_block (lines : list string) (total_requests : Z) : result Z :=
  l2 <- Py.index lines 2 ;;
  let line_with_requests := Py.strip l2 in
  let parts := Py.split line_with_requests in
  if (List.length parts =? 3)%nat then
    p <- Py.index parts 2 ;; Py.int p
  else Ret total_requests.

Definition get_nginx_stub_status (response : fetch) : result (Z * Z) :=
  match response with
  | FetchFailed => Ret (0, 0)
  | Fetched body =>
      let text := Py.strip body in
      if String.eqb text "" then Ret (0, 0) else
      let lines := Py.split_on LF text in
      if (List.length lines <? 3)%nat then Ret (0, 0) else
      let active_connections := 0 in
      let total_requests := 0 in
      active_connections <-
        try_except (active_loop lines active_connections)
                   [ValueError; IndexError] (Ret 0) ;;
      total_requests <-
        try_except (total_block lines total_requests)
                   [ValueError; IndexError] (Ret 0) ;;
      Ret (active_connections, total_requests)
  end.

(** *** Lines 135-174: the rate.  [now] is the reading of [time.time()].
    A run that raises has not reached the final [json.dump]: the file
    is as it was. *)

(** Lines 153-156: the body of the [try]. *)
Definition read_state (now : Q) (file : state_file) : result (json * json) :=
  match file with
  | NoFile => Raise FileNotFoundError
  | Unloadable e => Raise e
  | Holds state =>
      last_requests <- dict_get state "last_requests" (JInt 0) ;;
      last_time <- dict_get state "last_time" (JFloat now) ;;
      Ret (last_requests, last_time)
  end.

Definition compute_requests_per_second
    (current_requests : Z) (now : Q) (file : state_file)
    : result (Q * state_file) :=
  match file with
  | NoFile => Ret (0%Q, saved current_requests now)
  | _ =>
      st <- try_except (read_state now file)
              [JSONDecodeError; FileNotFoundError]
              (Ret (JInt current_requests, JFloat now)) ;;
      let (last_requests, last_time) := st in
      last_time <- number last_time ;;
      let elapsed := if Qltb last_time now then (now - last_time)%Q else 1%Q in
      last_requests <- number last_requests ;;
      let diff_requests := (inject_Z current_requests - last_requests)%Q in
      let diff_requests :=
        if Qltb diff_requests 0 then 0%Q else diff_requests in
      let rps := (diff_requests / elapsed)%Q in
      Ret (rps, saved current_requests now)
  end.

(** *** Lines 16-83 and 176-237: the top lists and the record. *)

(** One entry of [psutil.process_iter([...])] as [p.info], with the
    values psutil read (an entry with a [None] usage makes the sort
    raise, and the run does not complete). *)
Record proc_info : Type := {
  name : string;
  cmdline : option (list string);
  info_cpu_percent : Q;
  info_mem_percent : Q
}.

(** [" ".join(proc['cmdline']) if proc['cmdline'] else proc['name']] *)
Definition command (proc : proc_info) : string :=
  match cmdline proc with
  | Some (arg :: args) => Py.join " " (arg :: args)
  | _ => name proc
  end.

(** Lines 38-46 and 71-78: the five largest, value with one decimal. *)
Definition top_list (key : proc_info -> Q) (procs : list proc_info)
    : list (string * string) :=
  map (fun proc => (command proc, PyFormat.format_fixed 1 (key proc)))
      (Py.slice_to 5 (sort_desc key procs)).

Definition get_top_cpu_info (cpu_usage : Q) (procs : list proc_info)
    : Q * list (string * string) :=
  (cpu_usage, top_list info_cpu_percent procs).

Definition get_top_mem_info (mem_usage : Q) (procs : list proc_info)
    : Q * list (string * string) :=
  (mem_usage, top_list info_mem_percent procs).

(** Lines 194-201 and 203-210: [for i in range(5)], with a pair of empty
    strings where the list has no entry [i]. *)
Definition top_fields (top : list (string * string)) : list string :=
  flat_map (fun i =>
              match nth_error top i with
              | Some (proc_name, proc_val) => [proc_name; proc_val]
              | None => [""; ""]
              end) (seq 0 5).

(** Lines 219-227. *)
Definition row_items (now_str : string) (cpu_usage mem_usage : Q)
    (top_cpu top_mem : list (string * string)) (nginx_active_connections : Z)
    (nginx_requests_ps : Q) : list string :=
  ([now_str; PyFormat.format_fixed 2 cpu_usage]
   ++ top_fields top_cpu
   ++ [PyFormat.format_fixed 2 mem_usage]
   ++ top_fields top_mem
   ++ [Py.str_of_int nginx_active_connections;
       PyFormat.format_fixed 2 nginx_requests_ps])%list.

Definition main (now_str : string) (cpu_usage mem_usage : Q)
    (cpu_procs mem_procs : list proc_info) (response : fetch)
    (now : Q) (file : state_file) : result (string * state_file) :=
  let (cpu_usage, top_cpu) := get_top_cpu_info cpu_usage cpu_procs in
  let (mem_usage, top_mem) := get_top_mem_info mem_usage mem_procs in
  status <- get_nginx_stub_status response ;;
  let (nginx_active_connections, nginx_total_requests) := status in
  rate <- compute_requests_per_second
            nginx_total_requests now file ;;
  let (nginx_requests_ps, file_after) := rate in
  let csv_line :=
    Py.join ";" (row_items now_str cpu_usage mem_usage top_cpu top_mem
                   nginx_active_connections nginx_requests_ps)
    ++ String LF "" in
  Ret (csv_line, file_after).

End get_metrics_psutil.

(** ** [scrape_metrics_psutil_reduced.py] *)

Module scrape_metrics_psutil_reduced.

(** *** Lines 23-69: the status page.  The empty-text test is gone, and
    the [try] sits inside the loop, around [int(parts[2])]. *)

Fixpoint active_loop (lines : list string) (active_connections : Z)
    : result Z :=
  match lines with
  | [] => Ret active_connections
  | line :: rest =>
      if Py.startswith active_marker line then
        let parts := Py.split line in
        try_except (p <- Py.index parts 2 ;; Py.int p)
                   [ValueError; IndexError] (Ret 0)
      else active_loop rest active_connections
  end.

Definition total_block (lines : list string) (total_requests : Z) : result Z :=
  l2 <- Py.index lines 2 ;;
  let parts := Py.split (Py.strip l2) in
  if (List.length parts =? 3)%nat then
    p <- Py.index parts 2 ;; Py.int p
  else Ret total_requests.

Definition get_nginx_stub_status (response : fetch) : result (Z * Z) :=
  match response with
  | FetchFailed => Ret (0, 0)
  | Fetched body =>
      let text := Py.strip body in
      let lines := Py.split_on LF text in
      if (List.length lines <? 3)%nat then Ret (0, 0) else
      let active_connections := 0 in
      let total_requests := 0 in
      active_connections <- active_loop lines active_connections ;;
      total_requests <-
        try_except (total_block lines total_requests)
                   [ValueError; IndexError] (Ret 0) ;;
      Ret (active_connections, total_requests)
  end.

(** *** Lines 71-104: the rate, as in [get_metrics_psutil.py]. *)

(** Lines 85-88: the body of the [try]. *)
Definition read_state (now : Q) (file : state_file) : result (json * json) :=
  match file with
  | NoFile => Raise FileNotFoundError
  | Unloadable e => Raise e
  | Holds state =>
      last_requests <- dict_get state "last_requests" (JInt 0) ;;
      last_time <- dict_get state "last_time" (JFloat now) ;;
      Ret (last_requests, last_time)
  end.

Definition compute_requests_per_second
    (current_requests : Z) (now : Q) (file : state_file)
    : result (Q * state_file) :=
  match file with
  | NoFile => Ret (0%Q, saved current_requests now)
  | _ =>
      st <- try_except (read_state now file)
              [JSONDecodeError; FileNotFoundError]
              (Ret (JInt current_requests, JFloat now)) ;;
      let (last_requests, last_time) := st in
      last_time <- number last_time ;;
      let elapsed := if Qltb last_time now then (now - last_time)%Q else 1%Q in
      last_requests <- number last_requests ;;
      let diff_requests := (inject_Z current_requests - last_requests)%Q in
      let diff_requests :=
        if Qltb diff_requests 0 then 0%Q else diff_requests in
      let rps := (diff_requests / elapsed)%Q in
      Ret (rps, saved current_requests now)
  end.

(** *** Lines 122-160: the top lists. *)

Definition cpu_sample (proc : process) : sample :=
  match cpu_percent proc with
  | Got cpu_val => (name_or_dash proc, cpu_val)
  | Failed _ => ("-.", 0%Q)
  end.

Definition get_top_processes_by_cpu (n : Z) (scan : list process)
    : list sample :=
  let processes := map cpu_sample scan in
  let processes := sort_desc snd processes in
  Py.slice_to n processes.

(** [proc.info['memory_percent'] if proc.info['memory_percent'] else 0.0]:
    [None] and [0.0] both give [0.0]. *)
Definition mem_sample (proc : process) : sample :=
  (name_or_dash proc,
   match info_memory_percent proc with
   | Some mem_val => if Qeq_bool mem_val 0 then 0%Q else mem_val
   | None => 0%Q
   end).

Definition get_top_processes_by_memory (n : Z) (scan : list process)
    : list sample :=
  let processes := map mem_sample scan in
  let processes := sort_desc snd processes in
  Py.slice_to n processes.

(** Lines 179-180 and 184-185: [while len(top) < 5: top.append(("-.", 0.0))].
    [fuel] bounds the iterations. *)
Fixpoint pad_loop (fuel : nat) (top : list sample) : list sample :=
  if (List.length top <? 5)%nat then
    match fuel with
    | S fuel' => pad_loop fuel' (top ++ [sentinel])
    | O => top
    end
  else top.

Definition pad (top : list sample) : list sample := pad_loop 5 top.

(** *** Lines 165-225: the record. *)

(** Lines 205-213: name and two-decimal value of each entry. *)
Definition cols (top : list sample) : list string :=
  flat_map (fun entry => [fst entry; PyFormat.format_fixed 2 (snd entry)]) top.

(** Lines 215-223. *)
Definition row_data (timestamp : string) (cpu_usage mem_usage : Q)
    (top_cpu top_mem : list sample) (nginx_active_connections : Z)
    (nginx_requests_ps : Q) : list string :=
  ([timestamp; PyFormat.format_fixed 2 cpu_usage]
   ++ cols top_cpu
   ++ [PyFormat.format_fixed 2 mem_usage]
   ++ cols top_mem
   ++ [Py.str_of_int nginx_active_connections;
       PyFormat.format_fixed 2 nginx_requests_ps])%list.

(** The line appended to the output file, and the state file the run
    leaves behind. *)
Definition main (run : invocation) : result (string * state_file) :=
  let top_cpu := pad (get_top_processes_by_cpu 5 (cpu_scan run)) in
  let top_mem := pad (get_top_processes_by_memory 5 (mem_scan run)) in
  status <- get_nginx_stub_status (response run) ;;
  let (nginx_active_connections, nginx_total_requests) := status in
  rate <- compute_requests_per_second
            nginx_total_requests (now run) (file run) ;;
  let (nginx_requests_ps, file_after) := rate in
  let csv_line :=
    Py.join ";" (row_data (timestamp run) (cpu_usage run) (mem_usage run)
                   top_cpu top_mem nginx_active_connections
                   nginx_requests_ps) in
  Ret (csv_line, file_after).

End scrape_metrics_psutil_reduced.

(** ** [t_scrape_metrics_psutil.py], lines 113-172

    The first pass only primes psutil's counters; the list is built by
    the second pass. *)

Module t_scrape_metrics_psutil.

Definition cpu_sample (proc : process) : sample :=
  match cpu_percent proc with
  | Got cpu_pct => (name_or_dash proc, cpu_pct)
  | Failed _ => ("-.", 0%Q)
  end.

Definition get_top_processes_by_cpu (n : Z) (scan : list process)
    : list sample :=
  let process_usage := map cpu_sample scan in
  let process_usage := sort_desc snd process_usage in
  Py.slice_to n process_usage.

Definition mem_sample (proc : process) : sample :=
  match memory_percent proc with
  | Got mem_pct => (name_or_dash proc, mem_pct)
  | Failed _ => ("-.", 0%Q)
  end.

Definition get_top_processes_by_memory (n : Z) (scan : list process)
    : list sample :=
  let process_usage := map mem_sample scan in
  let process_usage := sort_desc snd process_usage in
  Py.slice_to n process_usage.

(** Lines 174-245: the record.  A name that is empty is written as
    [-.] once more. *)
Definition cols (top : list sample) : list string :=
  flat_map (fun entry =>
              [if String.eqb (fst entry) "" then "-." else fst entry;
               PyFormat.format_fixed 2 (snd entry)]) top.

Definition row_data (timestamp : string) (cpu_usage mem_usage : Q)
    (top_cpu_procs top_mem_procs : list sample) (nginx_active_connections : Z)
    (nginx_requests_ps : Q) : list string :=
  ([timestamp; PyFormat.format_fixed 2 cpu_usage]
   ++ cols top_cpu_procs
   ++ [PyFormat.format_fixed 2 mem_usage]
   ++ cols top_mem_procs
   ++ [Py.str_of_int nginx_active_connections;
       PyFormat.format_fixed 2 nginx_requests_ps])%list.

(** The padding loops of lines 184-185 and 193-194 are the ones of
    [scrape_metrics_psutil_reduced.py]; the status and rate functions
    are the ones of [get_metrics_psutil.py]. *)
Definition main (run : invocation) : result (string * state_file) :=
  let top_cpu_procs :=
    scrape_metrics_psutil_reduced.pad
      (get_top_processes_by_cpu 5 (cpu_scan run)) in
  let top_mem_procs :=
    scrape_metrics_psutil_reduced.pad
      (get_top_processes_by_memory 5 (mem_scan run)) in
  status <- get_metrics_psutil.get_nginx_stub_status (response run) ;;
  let (nginx_active_connections, nginx_total_requests) := status in
  rate <- get_metrics_psutil.compute_requests_per_second
            nginx_total_requests (now run) (file run) ;;
  let (nginx_requests_ps, file_after) := rate in
  let csv_line :=
    Py.join ";" (row_data (timestamp run) (cpu_usage run) (mem_usage run)
                   top_cpu_procs top_mem_procs nginx_active_connections
                   nginx_requests_ps) in
  Ret (csv_line, file_after).

End t_scrape_metrics_psutil.

(** ** [t_scrape_metrics_top.py], lines 72-133

    [output] is the list of lines
    [subprocess.check_output(cmd).decode(...).splitlines()]. *)

Module t_scrape_metrics_top.

Definition expect (literal s : string) : option string :=
  if Py.startswith literal s then
    Some (substring (String.length literal)
                    (String.length s - String.length literal) s)
  else None.

(** [\S+]: the longest run of non-space characters, which must not be
    empty, and what follows it. *)
Fixpoint nonspace_run (s : string) : string * string :=
  match s with
  | EmptyString => (EmptyString, EmptyString)
  | String c r =>
      if Py.isspace c then (EmptyString, s)
      else let (g, rest) := nonspace_run r in (String c g, rest)
  end.

Definition group (s : string) : option (string * string) :=
  match nonspace_run s with
  | (EmptyString, _) => None
  | (g, rest) => Some (g, rest)
  end.

(** [\s+]: at least one white-space character, then all that follow. *)
Definition spaces (s : string) : option string :=
  match s with
  | String c r => if Py.isspace c then Some (Py.lstrip r) else None
  | EmptyString => None
  end.

(** [(\S+)\s+word]: a group, white space, and the unit word. *)
Definition quantity (word s : string) : option (string * string) :=
  match group (Py.lstrip s) with
  | Some (g, rest) =>
      match spaces rest with
      | Some rest =>
          match expect word rest with
          | Some rest => Some (g, rest)
          | None => None
          end
      | None => None
      end
  | None => None
  end.

(** [mem_line_pattern.match(s)], lines 94-96, and its four groups.
    Every quantifier of the pattern is followed by a character of the
    other class (a white-space run by a non-space literal or group, a
    group by white space), so the longest run is the only one that can
    match and the pattern is read from left to right. *)
Definition mem_line_pattern (s : string)
    : option (string * string * string * string) :=
  match expect "MiB Mem" s with
  | Some s =>
      match expect ":" (Py.lstrip s) with
      | Some s =>
          match quantity "total," s with
          | Some (g1, s) =>
              match quantity "free," s with
              | Some (g2, s) =>
                  match quantity "used," s with
                  | Some (g3, s) =>
                      match quantity "buff/cache" s with
                      | Some (g4, _) => Some (g1, g2, g3, g4)
                      | None => None
                      end
                  | None => None
                  end
              | None => None
              end
          | None => None
          end
      | None => None
      end
  | None => None
  end.

(** Lines 102-112: the [try] of one matching line. *)
Definition usage_of_groups (groups : string * string * string * string)
    : result pyfloat :=
  let '(g1, g2, g3, g4) := groups in
  try_except
    (total_mib <- PyFloat.float g1 ;;
     free_mib <- PyFloat.float g2 ;;
     used_mib <- PyFloat.float g3 ;;
     buff_mib <- PyFloat.float g4 ;;
     ratio <- PyFloat.div used_mib total_mib ;;
     Ret (PyFloat.scale ratio 100))
    [ValueError] (Ret (Finite 0)).

(** Lines 98-117: [for i, line in enumerate(output)], left at the
    header; returns [mem_usage] and [header_index]. *)
Fixpoint scan (lines : list string) (i : nat) (mem_usage : pyfloat)
    : result (pyfloat * nat) :=
  match lines with
  | [] => Ret (mem_usage, 0%nat)
  | line :: rest =>
      mem_usage <-
        match mem_line_pattern (Py.strip line) with
        | Some groups => usage_of_groups groups
        | None => Ret mem_usage
        end ;;
      if Py.startswith "PID" (Py.strip line) then Ret (mem_usage, i)
      else scan rest (S i) mem_usage
  end.

(** Lines 122-128: rows with fewer than 12 columns are passed over. *)
Definition process_row (line : string) : list (string * string) :=
  let cols := Py.split_max 11 line in
  if (List.length cols <? 12)%nat then []
  else [(nth 11 cols "", nth 9 cols "")].

Definition get_top_mem_info (output : list string)
    : result (pyfloat * list (string * string)) :=
  let mem_usage := Finite 0 in
  found <- scan output 0 mem_usage ;;
  let (mem_usage, header_index) := found in
  let process_lines := skipn (header_index + 1) output in
  let top_mem_list := flat_map process_row (firstn 5 process_lines) in
  Ret (mem_usage, top_mem_list).

(** Lines 16-70: the CPU table. *)

(** [(.*?)\s*us,]: the shortest text without a line feed after which
    white space and [us,] follow.  The white space in front of the
    group is taken in full: giving some of it back to the group would
    only lengthen a group that matches anyway. *)
Fixpoint lazy_before_us (s : string) : option string :=
  if Py.startswith "us," (Py.lstrip s) then Some EmptyString
  else match s with
       | String c r =>
           if Ascii.eqb c LF then None
           else option_map (String c) (lazy_before_us r)
       | EmptyString => None
       end.

(** [cpu_line_pattern.match(s)], line 34, and its group. *)
Definition cpu_line_pattern (s : string) : option string :=
  match expect "%Cpu(s):" s with
  | Some rest => lazy_before_us (Py.lstrip rest)
  | None => None
  end.

(** Lines 41-45: the [try] of one matching line. *)
Definition usage_of_group (g : string) : result pyfloat :=
  try_except (PyFloat.float g) [ValueError] (Ret (Finite 0)).

(** Lines 36-50: the loop, left at the header. *)
Fixpoint scan_cpu (lines : list string) (i : nat) (cpu_usage : pyfloat)
    : result (pyfloat * nat) :=
  match lines with
  | [] => Ret (cpu_usage, 0%nat)
  | line :: rest =>
      cpu_usage <-
        match cpu_line_pattern (Py.strip line) with
        | Some g => usage_of_group g
        | None => Ret cpu_usage
        end ;;
      if Py.startswith "PID" (Py.strip line) then Ret (cpu_usage, i)
      else scan_cpu rest (S i) cpu_usage
  end.

(** Lines 58-65. *)
Definition cpu_process_row (line : string) : list (string * string) :=
  let cols := Py.split_max 11 line in
  if (List.length cols <? 12)%nat then []
  else [(nth 11 cols "", nth 8 cols "")].

Definition get_top_cpu_info (output : list string)
    : result (pyfloat * list (string * string)) :=
  let cpu_usage := Finite 0 in
  found <- scan_cpu output 0 cpu_usage ;;
  let (cpu_usage, header_index) := found in
  let process_lines := skipn (header_index + 1) output in
  let top_cpu_list := flat_map cpu_process_row (firstn 5 process_lines) in
  Ret (cpu_usage, top_cpu_list).

(** [f"{x:.2f}"] for the aggregate of this file, which may be one of
    the non-finite values. *)
Definition format_usage (x : pyfloat) : string :=
  match x with
  | Finite q => PyFormat.format_fixed 2 q
  | Infinity false => "inf"
  | Infinity true => "-inf"
  | NaN => "nan"
  end.

(** Lines 269-277. *)
Definition row_items (now_str : string) (cpu_usage mem_usage : pyfloat)
    (top_cpu top_mem : list (string * string)) (nginx_active_connections : Z)
    (nginx_requests_ps : Q) : list string :=
  ([now_str; format_usage cpu_usage]
   ++ get_metrics_psutil.top_fields top_cpu
   ++ [format_usage mem_usage]
   ++ get_metrics_psutil.top_fields top_mem
   ++ [Py.str_of_int nginx_active_connections;
       PyFormat.format_fixed 2 nginx_requests_ps])%list.

(** Lines 226-287.  [cpu_output] and [mem_output] are the two tables
    [top] prints; the loops of lines 244-260 and the status and rate
    functions are the ones of [get_metrics_psutil.py]. *)
Definition main (now_str : string) (cpu_output mem_output : list string)
    (response : fetch) (now : Q) (file : state_file)
    : result (string * state_file) :=
  cpu_info <- get_top_cpu_info cpu_output ;;
  let (cpu_usage, top_cpu) := cpu_info in
  mem_info <- get_top_mem_info mem_output ;;
  let (mem_usage, top_mem) := mem_info in
  status <- get_metrics_psutil.get_nginx_stub_status response ;;
  let (nginx_active_connections, nginx_total_requests) := status in
  rate <- get_metrics_psutil.compute_requests_per_second
            nginx_total_requests now file ;;
  let (nginx_requests_ps, file_after) := rate in
  let csv_line :=
    Py.join ";" (row_items now_str cpu_usage mem_usage top_cpu top_mem
                   nginx_active_connections nginx_requests_ps)
    ++ String LF "" in
  Ret (csv_line, file_after).

End t_scrape_metrics_top.

(** ** [scrape_metrics_top.py]

    The aggregates come from psutil; [top] is read for the rows only. *)

Module scrape_metrics_top.

(** Lines 34-38 and 72-76: [for i, line in enumerate(output)], left at
    the header; returns [header_index]. *)
Fixpoint header_loop (lines : list string) (i : nat) : nat :=
  match lines with
  | [] => 0%nat
  | line :: rest =>
      if Py.startswith "PID" (Py.strip line) then i
      else header_loop rest (S i)
  end.

Definition get_top_cpu_info (cpu_usage : Q) (output : list string)
    : Q * list (string * string) :=
  let header_index := header_loop output 0 in
  let process_lines := skipn (header_index + 1) output in
  let top_cpu_list :=
    flat_map t_scrape_metrics_top.cpu_process_row (firstn 5 process_lines) in
  (cpu_usage, top_cpu_list).

Definition get_top_mem_info (mem_usage : Q) (output : list string)
    : Q * list (string * string) :=
  let header_index := header_loop output 0 in
  let process_lines := skipn (header_index + 1) output in
  let top_mem_list :=
    flat_map t_scrape_metrics_top.process_row (firstn 5 process_lines) in
  (mem_usage, top_mem_list).

(** Lines 181-242: the record, put together as in [get_metrics_psutil.py]. *)
Definition main (now_str : string) (cpu_usage mem_usage : Q)
    (cpu_output mem_output : list string) (response : fetch)
    (now : Q) (file : state_file) : result (string * state_file) :=
  let (cpu_usage, top_cpu) := get_top_cpu_info cpu_usage cpu_output in
  let (mem_usage, top_mem) := get_top_mem_info mem_usage mem_output in
  status <- get_metrics_psutil.get_nginx_stub_status response ;;
  let (nginx_active_connections, nginx_total_requests) := status in
  rate <- get_metrics_psutil.compute_requests_per_second
            nginx_total_requests now file ;;
  let (nginx_requests_ps, file_after) := rate in
  let csv_line :=
    Py.join ";" (get_metrics_psutil.row_items now_str cpu_usage mem_usage
                   top_cpu top_mem nginx_active_connections nginx_requests_ps)
    ++ String LF "" in
  Ret (csv_line, file_after).

End scrape_metrics_top.

(** ** The specification's reading of the same data *)

(** What the two fields are, read off the lines of the stripped text:
    the third token of the first line that carries the marker, and the
    third token of the third line when that line has three tokens; a
    token that is missing or is no integer literal counts as 0. *)
Module StatusSpec.

Definition int_or_zero (tok : option string) : Z :=
  match tok with
  | Some t => match Py.int t with Ret v => v | Raise _ => 0 end
  | None => 0
  end.

Definition first_active_line (lines : list string) : option string :=
  find (Py.startswith active_marker) lines.

Definition active_field (lines : list string) : Z :=
  match first_active_line lines with
  | Some line => int_or_zero (nth_error (Py.split line) 2)
  | None => 0
  end.

Definition third_line_tokens (lines : list string) : list string :=
  Py.split (Py.strip (nth 2 lines "")).

Definition total_field (lines : list string) : Z :=
  match third_line_tokens lines with
  | [_; _; t] => int_or_zero (Some t)
  | _ => 0
  end.

Definition status_lines (body : string) : list string :=
  Py.split_on LF (Py.strip body).

Definition parse (body : string) : Z * Z :=
  let lines := status_lines body in
  if (List.length lines <? 3)%nat then (0, 0)
  else (active_field lines, total_field lines).

End StatusSpec.

(** The state files on which the load goes through: no file, a load
    that raises one of the two exceptions the [except] clause names, or
    an object whose two fields, where present, are numbers. *)
Module RateSpec.




(** The interval the rate is taken over (line 162). *)
Definition elapsed (last_time now : Q) : Q :=
  if Qltb last_time now then (now - last_time)%Q else 1%Q.


End RateSpec.

(** What a ranking is: [top] holds the first [n] entries (all of them
    when there are fewer) of a list [ranked] that rearranges [samples],
    has values that never increase, and keeps entries of equal value in
    the order [samples] has them. *)
Module RankSpec.

Definition value_is (v : Q) (s : sample) : bool := Qeq_bool (snd s) v.

Definition non_increasing (l : list sample) : Prop :=
  StronglySorted (fun a b => (snd b <= snd a)%Q) l.

Definition stable_ranking (samples ranked : list sample) : Prop :=
  Permutation ranked samples
  /\ non_increasing ranked
  /\ forall v, filter (value_is v) ranked = filter (value_is v) samples.

Definition ranked_prefix (n : nat) (samples top : list sample) : Prop :=
  List.length top = Nat.min n (List.length samples)
  /\ non_increasing top
  /\ exists ranked, stable_ranking samples ranked /\ top = firstn n ranked.

End RankSpec.

(** The table as the specification reads it: the header is the first
    line that starts with [PID]; the lines in front of it may hold the
    summary; the five lines after it are the rows. *)
Module TableSpec.

Definition is_header (line : string) : bool :=
  Py.startswith "PID" (Py.strip line).

Fixpoint before_header (output : list string) : list string :=
  match output with
  | [] => []
  | line :: rest => if is_header line then [] else line :: before_header rest
  end.

Fixpoint header_position (output : list string) : option nat :=
  match output with
  | [] => None
  | line :: rest =>
      if is_header line then Some 0%nat
      else option_map S (header_position rest)
  end.

Definition rows (output : list string) : list (string * string) :=
  let header_index :=
    match header_position output with Some i => i | None => 0%nat end in
  flat_map t_scrape_metrics_top.process_row
           (firstn 5 (skipn (header_index + 1) output)).

(** Where the loop, started at index [i], leaves the header index. *)
Definition found_index (i : nat) (lines : list string) : nat :=
  match header_position lines with Some k => (i + k)%nat | None => 0%nat end.


End TableSpec.

(** ** Shapes of text *)

(** A text of white space only. *)
Fixpoint all_space (s : string) : bool :=
  match s with
  | EmptyString => true
  | String c r => Py.isspace c && all_space r
  end.

(** A text without white space. *)
Fixpoint no_space (s : string) : bool :=
  match s with
  | EmptyString => true
  | String c r => negb (Py.isspace c) && no_space r
  end.

(** A column of a table line: a token, which is not empty and holds no
    white space, and the gap after it, which is not empty and holds
    white space only. *)
Definition is_cell (cell : string * string) : bool :=
  negb (String.eqb (fst cell) "") && no_space (fst cell)
  && negb (String.eqb (snd cell) "") && all_space (snd cell).

(** The columns one after the other, and then [rest]. *)
Fixpoint cells_text (cells : list (string * string)) (rest : string) : string :=
  match cells with
  | [] => rest
  | (token, gap) :: more => token ++ gap ++ cells_text more rest
  end.

(** ** Shapes of rankings *)

(** [top] leaves out nothing larger: what it does not hold of
    [samples] has no value above a value it holds. *)
Definition leaves_out_nothing_larger (samples top : list sample) : Prop :=
  exists rest,
    Permutation (top ++ rest) samples
    /\ forall x y, In x top -> In y rest -> (snd y <= snd x)%Q.

(** The number of entries [l[:n]] keeps of a list of [len] entries. *)
Definition slice_count (n : Z) (len : nat) : nat :=
  if n <? 0 then (len - Z.to_nat (- n))%nat else Nat.min (Z.to_nat n) len.

(** ** The record after the top lists *)





(** ** Shapes of tables *)

(** The rows of the CPU table: as [TableSpec.rows], with column 8. *)
Definition cpu_rows (output : list string) : list (string * string) :=
  flat_map t_scrape_metrics_top.cpu_process_row
           (firstn 5 (skipn (TableSpec.found_index 0 output + 1) output)).

(** The value of a [%Cpu(s)] group: what [float()] makes of it, [0.0]
    when [float()] rejects it. *)
Definition cpu_group_value (g : string) : pyfloat :=
  match PyFloat.float g with
  | Ret x => x
  | Raise _ => Finite 0
  end.

(** The value of the last [%Cpu(s)] line among [lines], [0.0] when
    there is none. *)
Definition cpu_step (usage : pyfloat) (line : string) : pyfloat :=
  match t_scrape_metrics_top.cpu_line_pattern (Py.strip line) with
  | Some g => cpu_group_value g
  | None => usage
  end.

Definition last_cpu_value (lines : list string) : pyfloat :=
  fold_left cpu_step lines (Finite 0).

(** A memory summary line whose four quantities are numbers to
    [float()] and whose total is zero. *)
Definition zero_total_line (line : string) : Prop :=
  exists g1 g2 g3 g4 total free used buff,
    t_scrape_metrics_top.mem_line_pattern (Py.strip line)
      = Some (g1, g2, g3, g4)
    /\ PyFloat.float g1 = Ret (Finite total) /\ (total == 0)%Q
    /\ PyFloat.float g2 = Ret free
    /\ PyFloat.float g3 = Ret used
    /\ PyFloat.float g4 = Ret buff.

(** ** Sample inputs *)

(** Status pages. *)
Definition page_with_short_third_line : string :=
  unlines ["Active connections: 5"; "server accepts handled requests";
           " 100 100"; "Reading: 0 Writing: 1 Waiting: 4"].

Definition page_with_words_on_third_line : string :=
  unlines ["Active connections: 5"; "server accepts handled requests";
           " up since 250"; "Reading: 0 Writing: 1 Waiting: 4"].

Definition page_without_marker : string :=
  unlines ["nginx"; "server accepts handled requests"; " 100 100 250"].

Definition page_from_the_spec : string :=
  unlines ["Active connections: 5"; "server accepts handled requests";
           " 100 100 250"; "Reading: 0 Writing: 1 Waiting: 4"; ""].

Definition page_after_blank_line : string :=
  unlines [""; "Active connections: 7"; " 1 2 3";
           "Reading: 0 Writing: 1 Waiting: 4"].

Definition page_with_two_markers : string :=
  unlines ["Active connections: n/a"; "Active connections: 7"; " 1 2 3"].


(** Processes, a run, and two tables of [top]. *)
Definition nginx_process : process :=
  {| info_name := Some "nginx";
     info_memory_percent := Some (3 # 2);
     cpu_percent := Got (9 # 2);
     memory_percent := Got (3 # 2) |}.

Definition vanished_process : process :=
  {| info_name := Some "sh";
     info_memory_percent := None;
     cpu_percent := Failed NoSuchProcess;
     memory_percent := Failed NoSuchProcess |}.

Definition idle_process : process :=
  {| info_name := Some "cron";
     info_memory_percent := Some (3 # 2);
     cpu_percent := Got 0%Q;
     memory_percent := Got (3 # 2) |}.


Definition run_from_the_spec : invocation :=
  {| timestamp := "2025-01-01 00:00:00";
     cpu_usage := 123 # 10;
     mem_usage := 40 # 1;
     cpu_scan := [{| info_name := Some "nginx";
                     info_memory_percent := Some (3 # 2);
                     cpu_percent := Got (45 # 10);
                     memory_percent := Got (3 # 2) |}];
     mem_scan := [nginx_process];
     response := Fetched page_from_the_spec;
     now := 10;
     file := saved 200 0 |}.

Definition table_with_zero_total : list string :=
  ["MiB Mem :      0.0 total,      0.0 free,      0.0 used,      0.0 buff/cache";
   "    PID USER      PR  NI    VIRT    RES    SHR S  %CPU  %MEM     TIME+ COMMAND";
   "   1234 www-data  20   0  143220  12344   6001 S   0.7   1.5   0:01.23 nginx: worker process"].

Definition table_of_top : list string :=
  ["top - 10:00:00 up 1 day,  1 user,  load average: 0.00, 0.01, 0.05";
   "MiB Mem :  15852.9 total,  13007.2 free,   1649.1 used,   196.7 buff/cache";
   "";
   "    PID USER      PR  NI    VIRT    RES    SHR S  %CPU  %MEM     TIME+ COMMAND";
   "   1234 www-data  20   0  143220  12344   6001 S   0.7   1.5   0:01.23 nginx: worker process";
   "broken row"].

Definition cpu_table_of_top : list string :=
  ["top - 10:00:00 up 1 day,  1 user,  load average: 0.00, 0.01, 0.05";
   "%Cpu(s):  3.4 us,  1.2 sy,  0.0 ni, 95.4 id,  0.0 wa";
   "MiB Mem :  15852.9 total,  13007.2 free,   1649.1 used,   196.7 buff/cache";
   "    PID USER      PR  NI    VIRT    RES    SHR S  %CPU  %MEM     TIME+ COMMAND";
   "   1234 www-data  20   0  143220  12344   6001 S   0.7   1.5   0:01.23 nginx: worker process"].

(** The columns of a line of [top]'s table. *)
Definition top_cells : list (string * string) :=
  [("1234", " "); ("www-data", "  "); ("20", "   "); ("0", "  ");
   ("143220", "  "); ("12344", "   "); ("6001", " "); ("S", "   ");
   ("0.7", "   "); ("1.5", "   "); ("0:01.23", " ")].

(** * Proofs *)

(** ** The primitives on sample inputs *)

Example split_example :
  Py.split "  Active  connections: 5 " = ["Active"; "connections:"; "5"].
Proof. reflexivity. Qed.

Example split_max_example :
  Py.split_max 2 " a  b   c d  " = ["a"; "b"; "c d  "].
Proof. reflexivity. Qed.

Example split_max_short_example :
  Py.split_max 11 "a b " = ["a"; "b"].
Proof. reflexivity. Qed.

Example split_on_example :
  Py.split_on "010" ("a" ++ String "010" "" ++ String "010" "b")
  = ["a"; ""; "b"].
Proof. reflexivity. Qed.

Example strip_example : Py.strip (String "010" "  x y " ++ String "009" "") = "x y".
Proof. reflexivity. Qed.

Example int_examples :
  Py.int "250" = Ret 250 /\ Py.int "-7" = Ret (-7) /\ Py.int "+1_000" = Ret 1000
  /\ Py.int "1__0" = Raise ValueError /\ Py.int "_1" = Raise ValueError
  /\ Py.int "1_" = Raise ValueError /\ Py.int "" = Raise ValueError
  /\ Py.int "12a" = Raise ValueError /\ Py.int "-" = Raise ValueError.
Proof. repeat split; reflexivity. Qed.

Example str_of_int_examples :
  Py.str_of_int 0 = "0" /\ Py.str_of_int 291 = "291" /\ Py.str_of_int (-4) = "-4".
Proof. repeat split; reflexivity. Qed.

Example format_fixed_examples :
  PyFormat.format_fixed 2 (123 # 10) = "12.30"
  /\ PyFormat.format_fixed 2 (45 # 10) = "4.50"
  /\ PyFormat.format_fixed 1 (45 # 10) = "4.5"
  /\ PyFormat.format_fixed 2 0 = "0.00"
  /\ PyFormat.format_fixed 2 (1 # 8) = "0.12"
  /\ PyFormat.format_fixed 2 (3 # 8) = "0.38"
  /\ PyFormat.format_fixed 2 (1999 # 1000) = "2.00"
  /\ PyFormat.format_fixed 2 (- 7 # 2) = "-3.50"
  /\ PyFormat.format_fixed 2 (1005 # 10) = "100.50".
Proof. repeat split; vm_compute; reflexivity. Qed.

Example float_examples :
  PyFloat.float "15852.9" = Ret (Finite (158529 # 10))
  /\ PyFloat.float "1649.1" = Ret (Finite (16491 # 10))
  /\ PyFloat.float "-2.5e1" = Ret (Finite (- 25 # 1))
  /\ PyFloat.float "1e-2" = Ret (Finite (1 # 100))
  /\ PyFloat.float ".5" = Ret (Finite (5 # 10))
  /\ PyFloat.float "7." = Ret (Finite (7 # 1))
  /\ PyFloat.float "1_0" = Ret (Finite (10 # 1))
  /\ PyFloat.float "-Infinity" = Ret (Infinity true)
  /\ PyFloat.float "NaN" = Ret NaN
  /\ PyFloat.float "." = Raise ValueError
  /\ PyFloat.float "" = Raise ValueError
  /\ PyFloat.float "1e" = Raise ValueError
  /\ PyFloat.float "e5" = Raise ValueError
  /\ PyFloat.float "15852,9" = Raise ValueError
  /\ PyFloat.float "1.2.3" = Raise ValueError.
Proof. repeat split; vm_compute; reflexivity. Qed.

Example mem_line_pattern_example :
  t_scrape_metrics_top.mem_line_pattern
    "MiB Mem :  15852.9 total,  13007.2 free,   1649.1 used,   196.7 buff/cache"
  = Some ("15852.9", "13007.2", "1649.1", "196.7").
Proof. reflexivity. Qed.

Example process_row_example :
  t_scrape_metrics_top.process_row
    "   1234 www-data  20   0  143220  12344   6001 S   0.7   1.5   0:01.23 nginx: worker process "
  = [("nginx: worker process ", "1.5")].
Proof. reflexivity. Qed.

(** ** Status page: the code computes [StatusSpec.parse] *)

Section StatusRefinement.

Import StatusSpec.

Lemma int_raises_only_ValueError (tok : string) :
  (exists v, Py.int tok = Ret v) \/ Py.int tok = Raise ValueError.
Proof.
  unfold Py.int. destruct (Py.take_sign tok) as [neg body].
  destruct (Py.digitpart 0 0 false body) as [[v n]|]; eauto.
Qed.

Lemma try_int_or_zero (parts : list string) :
  try_except (p <- Py.index parts 2 ;; Py.int p) [ValueError; IndexError] (Ret 0)
  = Ret (int_or_zero (nth_error parts 2)).
Proof.
  unfold Py.index. destruct (nth_error parts 2) as [p|]; simpl; [|reflexivity].
  destruct (int_raises_only_ValueError p) as [[v ->] | ->]; reflexivity.
Qed.

Lemma nth_error_short {A : Type} (l : list A) (n : nat) :
  (List.length l <= n)%nat -> nth_error l n = None.
Proof. apply nth_error_None. Qed.

Lemma active_loop_psutil (lines : list string) :
  try_except (get_metrics_psutil.active_loop lines 0)
             [ValueError; IndexError] (Ret 0)
  = Ret (active_field lines).
Proof.
  unfold active_field, first_active_line.
  induction lines as [|line rest IH];
    cbn [get_metrics_psutil.active_loop find]; [reflexivity|].
  destruct (Py.startswith active_marker line); [|exact IH].
  destruct (Nat.leb_spec 3 (List.length (Py.split line))) as [Hlen|Hlen].
  - apply try_int_or_zero.
  - rewrite nth_error_short by lia. reflexivity.
Qed.

Lemma active_loop_reduced (lines : list string) :
  scrape_metrics_psutil_reduced.active_loop lines 0
  = Ret (active_field lines).
Proof.
  unfold active_field, first_active_line.
  induction lines as [|line rest IH];
    cbn [scrape_metrics_psutil_reduced.active_loop find];
    [reflexivity|].
  destruct (Py.startswith active_marker line); [|exact IH].
  apply try_int_or_zero.
Qed.

Lemma total_block_spec (lines : list string) :
  (3 <= List.length lines)%nat ->
  try_except (get_metrics_psutil.total_block lines 0)
             [ValueError; IndexError] (Ret 0)
  = Ret (total_field lines).
Proof.
  intros Hlen.
  unfold get_metrics_psutil.total_block, total_field, third_line_tokens.
  destruct lines as [|l0 [|l1 [|l2 rest]]]; simpl in Hlen; try lia.
  simpl Py.index. simpl bind. simpl nth.
  destruct (Py.split (Py.strip l2)) as [|a [|b [|c [|d more]]]]; simpl;
    try reflexivity.
  destruct (int_raises_only_ValueError c) as [[v ->] | ->]; reflexivity.
Qed.

Lemma empty_text_has_one_line (text : string) :
  String.eqb text "" = true -> (List.length (Py.split_on LF text) <? 3)%nat = true.
Proof. intros H. apply String.eqb_eq in H. subst. reflexivity. Qed.

(** The [get_metrics_psutil.py] parse never raises and returns the two
    fields of [StatusSpec.parse]. *)
Lemma psutil_status_refines (body : string) :
  get_metrics_psutil.get_nginx_stub_status (Fetched body)
  = Ret (parse body).
Proof.
  unfold get_metrics_psutil.get_nginx_stub_status, parse, status_lines.
  destruct (String.eqb (Py.strip body) "") eqn:Hempty.
  - rewrite (empty_text_has_one_line _ Hempty). reflexivity.
  - destruct (Nat.ltb_spec (List.length (Py.split_on LF (Py.strip body))) 3)
      as [Hlt|Hge]; [reflexivity|].
    rewrite active_loop_psutil. simpl bind.
    rewrite total_block_spec by exact Hge. reflexivity.
Qed.

(** So does the [scrape_metrics_psutil_reduced.py] parse. *)
Lemma reduced_status_refines (body : string) :
  scrape_metrics_psutil_reduced.get_nginx_stub_status (Fetched body)
  = Ret (parse body).
Proof.
  unfold scrape_metrics_psutil_reduced.get_nginx_stub_status,
    parse, status_lines.
  destruct (Nat.ltb_spec (List.length (Py.split_on LF (Py.strip body))) 3)
    as [Hlt|Hge]; [reflexivity|].
  rewrite active_loop_reduced. simpl bind.
  change (scrape_metrics_psutil_reduced.total_block
            (Py.split_on LF (Py.strip body)) 0)
    with (get_metrics_psutil.total_block
            (Py.split_on LF (Py.strip body)) 0).
  rewrite total_block_spec by exact Hge. reflexivity.
Qed.

End StatusRefinement.

(** ** Status page: the claims *)

(** C1, as stated, fails.  Only the last token of the third line is
    converted: a page whose third line is [up since 250] does not have
    three integers there, yet both variants return [(5, 250)].  And a
    deviation in one field leaves the other: a page whose third line
    has two tokens gives [(5, 0)], a page without the marker line gives
    [(0, 250)]. *)
Lemma status_deviation_keeps_other_field :
  StatusSpec.third_line_tokens
    (StatusSpec.status_lines page_with_words_on_third_line)
    = ["up"; "since"; "250"]
  /\ Py.int "up" = Raise ValueError
  /\ get_metrics_psutil.get_nginx_stub_status
       (Fetched page_with_words_on_third_line) = Ret (5, 250)
  /\ scrape_metrics_psutil_reduced.get_nginx_stub_status
       (Fetched page_with_words_on_third_line) = Ret (5, 250)
  /\ List.length (StatusSpec.third_line_tokens
                    (StatusSpec.status_lines page_with_short_third_line))
     = 2%nat
  /\ get_metrics_psutil.get_nginx_stub_status
       (Fetched page_with_short_third_line) = Ret (5, 0)
  /\ scrape_metrics_psutil_reduced.get_nginx_stub_status
       (Fetched page_with_short_third_line) = Ret (5, 0)
  /\ StatusSpec.first_active_line
       (StatusSpec.status_lines page_without_marker) = None
  /\ get_metrics_psutil.get_nginx_stub_status
       (Fetched page_without_marker) = Ret (0, 250)
  /\ scrape_metrics_psutil_reduced.get_nginx_stub_status
       (Fetched page_without_marker) = Ret (0, 250).
Proof. repeat split; vm_compute; reflexivity. Qed.

(** C1, amended: on every fetched text both variants return a pair and
    raise nothing.  The pair is [(0, 0)] when the stripped text has fewer
    than three lines.  Otherwise the active count is 0 when no line
    starts with the marker, or the first such line has no third token,
    or that token is no integer literal; the total is 0 when the third
    line does not have exactly three tokens, or its third token is no
    integer literal; and the total is the third token of a third line
    of three tokens whatever the first two tokens are. *)
Theorem status_parse_degrades_per_field (body : string) :
  exists active total : Z,
    get_metrics_psutil.get_nginx_stub_status (Fetched body)
      = Ret (active, total)
    /\ scrape_metrics_psutil_reduced.get_nginx_stub_status (Fetched body)
      = Ret (active, total)
    /\ ((List.length (StatusSpec.status_lines body) < 3)%nat ->
        active = 0 /\ total = 0)
    /\ (StatusSpec.first_active_line (StatusSpec.status_lines body) = None ->
        active = 0)
    /\ (forall line,
          StatusSpec.first_active_line (StatusSpec.status_lines body) = Some line ->
          nth_error (Py.split line) 2 = None ->
          active = 0)
    /\ (forall line tok,
          StatusSpec.first_active_line (StatusSpec.status_lines body) = Some line ->
          nth_error (Py.split line) 2 = Some tok ->
          Py.int tok = Raise ValueError ->
          active = 0)
    /\ (List.length (StatusSpec.third_line_tokens (StatusSpec.status_lines body))
          <> 3%nat ->
        total = 0)
    /\ (forall tok,
          nth_error (StatusSpec.third_line_tokens (StatusSpec.status_lines body)) 2
            = Some tok ->
          Py.int tok = Raise ValueError ->
          total = 0)
    /\ (forall first second tok T,
          StatusSpec.third_line_tokens (StatusSpec.status_lines body)
            = [first; second; tok] ->
          Py.int tok = Ret T ->
          total = T).
Proof.
  exists (fst (StatusSpec.parse body)), (snd (StatusSpec.parse body)).
  rewrite psutil_status_refines, reduced_status_refines, <- surjective_pairing.
  do 2 (split; [reflexivity|]).
  unfold StatusSpec.parse.
  destruct (Nat.ltb_spec (List.length (StatusSpec.status_lines body)) 3)
    as [Hlt|Hge]; cbn [fst snd].
  - do 5 (split; [intros; auto|]).
    split; [reflexivity|].
    intros first second tok T Htoks _. exfalso.
    unfold StatusSpec.third_line_tokens in Htoks.
    rewrite nth_overflow in Htoks by lia. discriminate Htoks.
  - unfold StatusSpec.active_field, StatusSpec.total_field.
    split; [lia|].
    split; [intros ->; reflexivity|].
    split; [intros line -> ->; reflexivity|].
    split; [intros line tok -> -> Hint; cbn; rewrite Hint; reflexivity|].
    split; [|split].
    + intros Hlen.
      destruct (StatusSpec.third_line_tokens (StatusSpec.status_lines body))
        as [|a [|b [|c [|d more]]]]; try reflexivity.
      exfalso. apply Hlen. reflexivity.
    + intros tok Htok Hint.
      destruct (StatusSpec.third_line_tokens (StatusSpec.status_lines body))
        as [|a [|b [|c [|d more]]]]; try reflexivity.
      cbn in Htok. injection Htok as ->. cbn. rewrite Hint. reflexivity.
    + intros first second tok T -> Hint. cbn. rewrite Hint. reflexivity.
Qed.

Lemma status_parse_degrades_per_field_witness :
  get_metrics_psutil.get_nginx_stub_status
    (Fetched page_with_short_third_line) = Ret (5, 0).
Proof.
  destruct (status_parse_degrades_per_field page_with_short_third_line)
    as (active & total & Hrun & _ & _ & _ & _ & _ & Htotal & _ & _).
  rewrite Hrun. f_equal. f_equal.
  - vm_compute in Hrun. injection Hrun as <- _. reflexivity.
  - apply Htotal. vm_compute. discriminate.
Defined.

(** C8, as stated, fails on two counts.  The text is stripped before it
    is cut into lines, so a leading blank line moves the counters off
    the third line: [page_after_blank_line] has [" 1 2 3"] as its third
    line and holds the line [Active connections: 7], yet the result is
    [(7, 0)].  And the loop stops at the first line that starts with the
    marker, whether or not an integer follows: [page_with_two_markers]
    holds the line [Active connections: 7] and has [" 1 2 3"] as its
    third line, yet the result is [(0, 3)]. *)
Lemma status_third_line_and_marker_counterexample :
  nth 2 (Py.split_on LF page_after_blank_line) "" = " 1 2 3"
  /\ In "Active connections: 7" (Py.split_on LF page_after_blank_line)
  /\ get_metrics_psutil.get_nginx_stub_status
       (Fetched page_after_blank_line) = Ret (7, 0)
  /\ nth 2 (Py.split_on LF page_with_two_markers) "" = " 1 2 3"
  /\ In "Active connections: 7" (Py.split_on LF page_with_two_markers)
  /\ get_metrics_psutil.get_nginx_stub_status
       (Fetched page_with_two_markers) = Ret (0, 3).
Proof.
  repeat split; try (vm_compute; reflexivity).
  - vm_compute. right. left. reflexivity.
  - vm_compute. right. left. reflexivity.
Qed.

(** C8, amended: take the text stripped of surrounding white space.  If
    its third line has exactly three whitespace-separated tokens, the
    last one an integer literal [T], and the first line that starts with
    [Active connections:] has an integer literal [C] as its third token,
    both variants return [(C, T)]. *)
Theorem status_parse_well_formed
    (body line first second Ttok Ctok : string) (C T : Z) :
  StatusSpec.third_line_tokens (StatusSpec.status_lines body)
    = [first; second; Ttok] ->
  Py.int Ttok = Ret T ->
  StatusSpec.first_active_line (StatusSpec.status_lines body) = Some line ->
  nth_error (Py.split line) 2 = Some Ctok ->
  Py.int Ctok = Ret C ->
  get_metrics_psutil.get_nginx_stub_status (Fetched body) = Ret (C, T)
  /\ scrape_metrics_psutil_reduced.get_nginx_stub_status (Fetched body)
     = Ret (C, T).
Proof.
  intros Hthird HT Hline HCtok HC.
  rewrite psutil_status_refines, reduced_status_refines.
  assert (Hparse : StatusSpec.parse body = (C, T)); [|rewrite Hparse; auto].
  unfold StatusSpec.parse.
  destruct (Nat.ltb_spec (List.length (StatusSpec.status_lines body)) 3)
    as [Hlt|Hge].
  - exfalso. unfold StatusSpec.third_line_tokens in Hthird.
    rewrite nth_overflow in Hthird by lia. discriminate Hthird.
  - unfold StatusSpec.active_field, StatusSpec.total_field.
    rewrite Hline, HCtok, Hthird. cbn. rewrite HC, HT. reflexivity.
Qed.

(** The end-to-end page of the specification parses to [(5, 250)]. *)
Lemma status_parse_well_formed_witness :
  get_metrics_psutil.get_nginx_stub_status (Fetched page_from_the_spec)
    = Ret (5, 250)
  /\ scrape_metrics_psutil_reduced.get_nginx_stub_status
       (Fetched page_from_the_spec) = Ret (5, 250).
Proof.
  apply (status_parse_well_formed page_from_the_spec
           "Active connections: 5" "100" "100" "250" "5" 5 250);
    vm_compute; reflexivity.
Defined.

(** ** Request rate: arithmetic of one call *)

Section RateArithmetic.

Import RateSpec.

Lemma Qltb_lt (x y : Q) : Qltb x y = true <-> (x < y)%Q.
Proof.
  unfold Qltb. rewrite negb_true_iff. split.
  - intros H. apply Qnot_le_lt. intros Hle.
    apply Qle_bool_iff in Hle. congruence.
  - intros H. destruct (Qle_bool y x) eqn:E; [|reflexivity].
    apply Qle_bool_iff in E. exfalso. exact (Qlt_not_le _ _ H E).
Qed.

Lemma Qltb_ge (x y : Q) : Qltb x y = false <-> (y <= x)%Q.
Proof.
  unfold Qltb. rewrite negb_false_iff. apply Qle_bool_iff.
Qed.










End RateArithmetic.

(** ** Request rate: the claims *)

Section RateClaims.

Import RateSpec.


End RateClaims.











(** ** Ranking: the stable descending sort *)

Lemma firstn_incl {A : Type} (n : nat) (l : list A) (y : A) :
  In y (firstn n l) -> In y l.
Proof.
  revert n. induction l as [|x rest IH]; intros [|n]; cbn; try tauto.
  intros [H|H]; [left; exact H|right; exact (IH n H)].
Qed.

Lemma firstn_sorted {A : Type} (R : A -> A -> Prop) (n : nat) (l : list A) :
  StronglySorted R l -> StronglySorted R (firstn n l).
Proof.
  intros H. revert n. induction H as [|x rest Hs IH Hall]; intros [|n]; cbn;
    try constructor.
  - apply IH.
  - apply Forall_forall. intros y Hy. apply firstn_incl in Hy.
    rewrite Forall_forall in Hall. auto.
Qed.

Section StableSort.

Context {A : Type} (key : A -> Q).

Let desc (a b : A) : Prop := (key b <= key a)%Q.

Lemma insert_desc_perm (x : A) (l : list A) :
  Permutation (insert_desc key x l) (x :: l).
Proof.
  induction l as [|y rest IH]; cbn; [reflexivity|].
  destruct (Qltb (key x) (key y)); [|reflexivity].
  rewrite IH. apply perm_swap.
Qed.

Lemma sort_desc_perm (l : list A) : Permutation (sort_desc key l) l.
Proof.
  induction l as [|x rest IH]; cbn; [reflexivity|].
  rewrite insert_desc_perm. apply perm_skip. exact IH.
Qed.

Lemma sort_desc_length (l : list A) :
  List.length (sort_desc key l) = List.length l.
Proof. apply Permutation_length, sort_desc_perm. Qed.

Lemma insert_desc_sorted (x : A) (l : list A) :
  StronglySorted desc l -> StronglySorted desc (insert_desc key x l).
Proof.
  induction 1 as [|y rest Hsorted IH Hall]; cbn.
  - constructor; [constructor|constructor].
  - destruct (Qltb (key x) (key y)) eqn:E.
    + constructor; [exact IH|].
      apply (Permutation_Forall (Permutation_sym (insert_desc_perm x rest))).
      constructor; [|exact Hall].
      apply Qltb_lt in E. apply Qlt_le_weak. exact E.
    + apply Qltb_ge in E. constructor.
      * constructor; assumption.
      * constructor; [exact E|].
        eapply Forall_impl; [|exact Hall].
        intros z Hz. unfold desc in *. eapply Qle_trans; eassumption.
Qed.

Lemma sort_desc_sorted (l : list A) : StronglySorted desc (sort_desc key l).
Proof.
  induction l as [|x rest IH]; cbn; [constructor|].
  apply insert_desc_sorted. exact IH.
Qed.

Lemma insert_desc_stable (v : Q) (x : A) (l : list A) :
  filter (fun a => Qeq_bool (key a) v) (insert_desc key x l)
  = filter (fun a => Qeq_bool (key a) v) (x :: l).
Proof.
  induction l as [|y rest IH]; [reflexivity|].
  cbn [insert_desc]. destruct (Qltb (key x) (key y)) eqn:E; [|reflexivity].
  cbn [filter] in *. rewrite IH.
  destruct (Qeq_bool (key y) v) eqn:Ey, (Qeq_bool (key x) v) eqn:Ex;
    try reflexivity.
  exfalso. apply Qeq_bool_iff in Ey, Ex. apply Qltb_lt in E.
  rewrite Ex, Ey in E. exact (Qlt_irrefl _ E).
Qed.

Lemma sort_desc_stable (v : Q) (l : list A) :
  filter (fun a => Qeq_bool (key a) v) (sort_desc key l)
  = filter (fun a => Qeq_bool (key a) v) l.
Proof.
  induction l as [|x rest IH]; [reflexivity|].
  cbn [sort_desc fold_right]. rewrite insert_desc_stable.
  cbn [filter]. fold (sort_desc key rest). rewrite IH. reflexivity.
Qed.

End StableSort.

(** ** Ranking: the claims *)

Section RankingClaims.

Import RankSpec.

Lemma slice_to_nonneg {A : Type} (n : Z) (l : list A) :
  0 <= n -> Py.slice_to n l = firstn (Z.to_nat n) l.
Proof.
  intros Hn. unfold Py.slice_to.
  destruct (Z.ltb_spec n 0); [lia|reflexivity].
Qed.


Lemma pad_loop_appends (fuel : nat) (top : list sample) :
  (5 - List.length top <= fuel)%nat ->
  scrape_metrics_psutil_reduced.pad_loop fuel top
  = (top ++ repeat sentinel (5 - List.length top))%list.
Proof.
  revert top. induction fuel as [|fuel IH]; intros top Hfuel;
    cbn [scrape_metrics_psutil_reduced.pad_loop].
  - destruct (Nat.ltb_spec (List.length top) 5); [lia|].
    replace (5 - List.length top)%nat with 0%nat by lia.
    cbn [repeat]. rewrite app_nil_r. reflexivity.
  - destruct (Nat.ltb_spec (List.length top) 5) as [Hlt|Hge].
    + rewrite IH by (rewrite length_app; cbn [List.length]; lia).
      rewrite length_app. cbn [List.length].
      replace (5 - List.length top)%nat
        with (S (5 - (List.length top + 1)))%nat by lia.
      cbn [repeat]. rewrite <- app_assoc. reflexivity.
    + replace (5 - List.length top)%nat with 0%nat by lia.
      cbn [repeat]. rewrite app_nil_r. reflexivity.
Qed.

Lemma pad_appends (top : list sample) :
  scrape_metrics_psutil_reduced.pad top
  = (top ++ repeat sentinel (5 - List.length top))%list.
Proof. apply pad_loop_appends. lia. Qed.





End RankingClaims.




(** ** The record: fields without the separator *)

Section Separator.

Import PyFormat.










End Separator.

(** ** The record: the claims *)

Section RecordClaims.

Import PyFormat.
Import scrape_metrics_psutil_reduced.
Import scrape_metrics_psutil_reduced.




Lemma padded_entry_origin (samples : list sample) (entry : sample) :
  In entry (pad (Py.slice_to 5 (sort_desc snd samples))) ->
  entry = sentinel \/ In entry samples.
Proof.
  rewrite pad_appends, slice_to_nonneg by lia. intros H.
  apply in_app_or in H as [H|H].
  - right. apply firstn_incl in H.
    apply (Permutation_in _ (sort_desc_perm snd samples)). exact H.
  - left. apply repeat_spec in H. exact H.
Qed.

Lemma cols_length (top : list sample) :
  List.length (cols top) = (2 * List.length top)%nat.
Proof.
  unfold cols. induction top as [|entry top IH]; cbn in *; [reflexivity|].
  rewrite IH. lia.
Qed.

Lemma row_data_length (ts : string) (cpu mem : Q) (top_cpu top_mem : list sample)
    (active : Z) (rps : Q) :
  List.length top_cpu = 5%nat -> List.length top_mem = 5%nat ->
  List.length (row_data ts cpu mem top_cpu top_mem active rps) = 25%nat.
Proof.
  intros Hc Hm. unfold row_data.
  rewrite !length_app, !cols_length, Hc, Hm. reflexivity.
Qed.




Lemma cpu_sample_name (proc : process) :
  fst (cpu_sample proc) = name_or_dash proc \/ cpu_sample proc = sentinel.
Proof. unfold cpu_sample. destruct (cpu_percent proc); auto. Qed.

Lemma mem_sample_name (proc : process) :
  fst (mem_sample proc) = name_or_dash proc \/ mem_sample proc = sentinel.
Proof. left. reflexivity. Qed.

(** The rate function of this file is the one of [get_metrics_psutil.py]. *)
Lemma reduced_rate_is_the_same (c : Z) (t : Q) (f : state_file) :
  scrape_metrics_psutil_reduced.compute_requests_per_second c t f
  = get_metrics_psutil.compute_requests_per_second c t f.
Proof. reflexivity. Qed.




End RecordClaims.




(** ** The process table: scanning for the summary line *)

Section TableScan.

Import TableSpec.
Import t_scrape_metrics_top.

Lemma float_raises_only_ValueError (tok : string) :
  (exists x, PyFloat.float tok = Ret x) \/ PyFloat.float tok = Raise ValueError.
Proof.
  unfold PyFloat.float. destruct (Py.take_sign tok) as [neg body].
  destruct (String.eqb (PyFloat.lower body) "inf"
            || String.eqb (PyFloat.lower body) "infinity"); [eauto|].
  destruct (String.eqb (PyFloat.lower body) "nan"); [eauto|].
  destruct (PyFloat.number body); eauto.
Qed.

(** A header line is no summary line: the two start differently. *)
Lemma header_is_no_summary (line : string) :
  is_header line = true -> mem_line_pattern (Py.strip line) = None.
Proof.
  unfold is_header, mem_line_pattern, expect.
  destruct (Py.strip line) as [|c s]; [discriminate|].
  cbn [Py.startswith]. intros H. apply andb_true_iff in H as [Hc _].
  apply Ascii.eqb_eq in Hc. subst c. reflexivity.
Qed.

Lemma found_index_step (i : nat) (line : string) (rest : list string) :
  is_header line = false ->
  TableSpec.found_index i (line :: rest) = TableSpec.found_index (S i) rest.
Proof.
  intros H. unfold TableSpec.found_index. cbn [header_position]. rewrite H.
  destruct (header_position rest) as [k|]; cbn; [lia|reflexivity].
Qed.

Lemma found_index_header (i : nat) (line : string) (rest : list string) :
  is_header line = true -> TableSpec.found_index i (line :: rest) = i.
Proof.
  intros H. unfold TableSpec.found_index. cbn [header_position]. rewrite H. lia.
Qed.






Lemma usage_zero_total (g1 g2 g3 g4 : string) (total : Q)
    (free used buff : pyfloat) :
  PyFloat.float g1 = Ret (Finite total) -> PyFloat.float g2 = Ret free ->
  PyFloat.float g3 = Ret used -> PyFloat.float g4 = Ret buff ->
  (total == 0)%Q ->
  usage_of_groups (g1, g2, g3, g4) = Raise ZeroDivisionError.
Proof.
  intros H1 H2 H3 H4 Hz. unfold usage_of_groups.
  rewrite H1, H2, H3, H4. cbn [bind PyFloat.div].
  apply Qeq_bool_iff in Hz. rewrite Hz. reflexivity.
Qed.

End TableScan.

(** ** The process table: the claims *)




(** * Further properties of the code *)

(** ** Status page: white space around the text *)

Section StripFacts.

Lemma all_space_nil : all_space "" = true.
Proof. reflexivity. Qed.

Lemma all_space_cons (c : ascii) (r : string) :
  all_space (String c r) = Py.isspace c && all_space r.
Proof. reflexivity. Qed.

Lemma lstrip_all_space (s : string) : all_space s = true -> Py.lstrip s = "".
Proof.
  induction s as [|c r IH]; [reflexivity|].
  rewrite all_space_cons. intros H. apply andb_true_iff in H as [Hc Hr].
  cbn [Py.lstrip]. rewrite Hc. exact (IH Hr).
Qed.

Lemma lstrip_lead (lead s : string) :
  all_space lead = true -> Py.lstrip (lead ++ s) = Py.lstrip s.
Proof.
  induction lead as [|c r IH]; [reflexivity|].
  rewrite all_space_cons. intros H. apply andb_true_iff in H as [Hc Hr].
  cbn [append Py.lstrip]. rewrite Hc. exact (IH Hr).
Qed.

Lemma lstrip_app (s t : string) :
  Py.lstrip (s ++ t)
  = if all_space s then Py.lstrip t else Py.lstrip s ++ t.
Proof.
  induction s as [|c r IH]; [reflexivity|].
  rewrite all_space_cons. cbn [append Py.lstrip].
  destruct (Py.isspace c); [exact IH|reflexivity].
Qed.

Lemma rstrip_all_space (s : string) : all_space s = true -> Py.rstrip s = "".
Proof.
  induction s as [|c r IH]; [reflexivity|].
  rewrite all_space_cons. intros H. apply andb_true_iff in H as [Hc Hr].
  cbn [Py.rstrip]. rewrite (IH Hr), Hc. reflexivity.
Qed.

Lemma rstrip_trail (s trail : string) :
  all_space trail = true -> Py.rstrip (s ++ trail) = Py.rstrip s.
Proof.
  intros Htrail. induction s as [|c r IH].
  - cbn [append]. rewrite rstrip_all_space by exact Htrail. reflexivity.
  - cbn [append Py.rstrip]. rewrite IH. reflexivity.
Qed.

(** White space around a text does not survive [strip]. *)
Lemma strip_surrounded (lead s trail : string) :
  all_space lead = true -> all_space trail = true ->
  Py.strip (lead ++ s ++ trail) = Py.strip s.
Proof.
  intros Hlead Htrail. unfold Py.strip.
  rewrite lstrip_lead by exact Hlead. rewrite lstrip_app.
  destruct (all_space s) eqn:Hs.
  - rewrite (lstrip_all_space _ Htrail), (lstrip_all_space _ Hs). reflexivity.
  - apply rstrip_trail. exact Htrail.
Qed.

End StripFacts.

(** X1: the status parse of [get_metrics_psutil.py] and the one of
    [scrape_metrics_psutil_reduced.py] return the same pair on every
    response, failed fetch included. *)
Theorem status_variants_agree (response : fetch) :
  get_metrics_psutil.get_nginx_stub_status response
  = scrape_metrics_psutil_reduced.get_nginx_stub_status response.
Proof.
  destruct response as [|body]; [reflexivity|].
  rewrite psutil_status_refines, reduced_status_refines. reflexivity.
Qed.

(** X2: white space in front of the page and behind it, blank lines
    included, does not change what the status parse returns. *)
Theorem status_parse_ignores_surrounding_space (lead body trail : string) :
  all_space lead = true -> all_space trail = true ->
  get_metrics_psutil.get_nginx_stub_status (Fetched (lead ++ body ++ trail))
  = get_metrics_psutil.get_nginx_stub_status (Fetched body)
  /\ scrape_metrics_psutil_reduced.get_nginx_stub_status
       (Fetched (lead ++ body ++ trail))
     = scrape_metrics_psutil_reduced.get_nginx_stub_status (Fetched body).
Proof.
  intros Hlead Htrail.
  rewrite !psutil_status_refines, !reduced_status_refines.
  unfold StatusSpec.parse, StatusSpec.status_lines.
  rewrite strip_surrounded by assumption. split; reflexivity.
Qed.

Lemma status_parse_ignores_surrounding_space_witness :
  get_metrics_psutil.get_nginx_stub_status
    (Fetched (String LF "  " ++ page_from_the_spec ++ String LF (String LF " ")))
  = Ret (5, 250).
Proof.
  rewrite (proj1 (status_parse_ignores_surrounding_space
                    (String LF "  ") page_from_the_spec
                    (String LF (String LF " ")) eq_refl eq_refl)).
  vm_compute. reflexivity.
Defined.

(** ** Request rate: which state files load, and sequences of calls *)

Section RateSequences.

Import RateSpec.







End RateSequences.











(** X8: of the object in the state file the rate call reads the two
    fields [last_requests] and [last_time] and nothing else: other
    keys and the order of the keys make no difference, and a key that
    is missing stands for 0, respectively for [now]. *)
Theorem rate_reads_two_fields
    (current_requests : Z) (now : Q) (members : list (string * json))
    (last_requests last_time : json) :
  dict_get (JObj members) "last_requests" (JInt 0) = Ret last_requests ->
  dict_get (JObj members) "last_time" (JFloat now) = Ret last_time ->
  get_metrics_psutil.compute_requests_per_second
    current_requests now (Holds (JObj members))
  = get_metrics_psutil.compute_requests_per_second
      current_requests now
      (Holds (JObj [("last_requests", last_requests);
                    ("last_time", last_time)])).
Proof.
  intros Hr Ht.
  unfold get_metrics_psutil.compute_requests_per_second,
    get_metrics_psutil.read_state.
  rewrite Hr, Ht. reflexivity.
Qed.

Lemma rate_reads_two_fields_witness :
  get_metrics_psutil.compute_requests_per_second 250 10
    (Holds (JObj [("host", JStr "web1"); ("last_time", JFloat 0)]))
  = get_metrics_psutil.compute_requests_per_second 250 10 (saved 0 0).
Proof.
  apply (rate_reads_two_fields 250 10
           [("host", JStr "web1"); ("last_time", JFloat 0)]
           (JInt 0) (JFloat 0)); reflexivity.
Defined.

(** ** Ranking: what the top leaves out, and what it never holds *)

Section RankingFacts.

Lemma sorted_app_dominates {A : Type} (R : A -> A -> Prop) (l1 l2 : list A) :
  StronglySorted R (l1 ++ l2) ->
  forall x y, In x l1 -> In y l2 -> R x y.
Proof.
  induction l1 as [|a l1 IH]; cbn; intros Hs x y Hx Hy; [contradiction|].
  inversion Hs as [|? ? Hrest Hall]; subst.
  destruct Hx as [<- | Hx].
  - rewrite Forall_forall in Hall. apply Hall.
    apply in_or_app. right. exact Hy.
  - exact (IH Hrest x y Hx Hy).
Qed.

Lemma slice_to_firstn {A : Type} (n : Z) (l : list A) :
  Py.slice_to n l = firstn (slice_count n (List.length l)) l.
Proof.
  unfold Py.slice_to, slice_count. destruct (Z.ltb_spec n 0) as [Hneg|Hpos].
  - f_equal. lia.
  - destruct (Nat.le_ge_cases (Z.to_nat n) (List.length l)) as [H|H].
    + rewrite Nat.min_l by exact H. reflexivity.
    + rewrite Nat.min_r by exact H.
      rewrite !firstn_all2 by lia. reflexivity.
Qed.

Lemma slice_to_incl {A : Type} (n : Z) (l : list A) (x : A) :
  In x (Py.slice_to n l) -> In x l.
Proof. rewrite slice_to_firstn. apply firstn_incl. Qed.

Lemma top_slice_leaves_out_nothing_larger (n : Z) (samples : list sample) :
  leaves_out_nothing_larger samples (Py.slice_to n (sort_desc snd samples)).
Proof.
  rewrite slice_to_firstn.
  set (k := slice_count n (List.length (sort_desc snd samples))).
  exists (skipn k (sort_desc snd samples)). split.
  - rewrite firstn_skipn. apply sort_desc_perm.
  - apply (sorted_app_dominates (fun a b : sample => (snd b <= snd a)%Q)).
    rewrite firstn_skipn. apply (sort_desc_sorted snd).
Qed.

Lemma top_slice_any_bound (n : Z) (samples : list sample) :
  RankSpec.ranked_prefix (slice_count n (List.length samples)) samples
    (Py.slice_to n (sort_desc snd samples)).
Proof.
  rewrite slice_to_firstn, sort_desc_length.
  set (k := slice_count n (List.length samples)).
  split; [|split].
  - rewrite length_firstn, sort_desc_length. reflexivity.
  - apply firstn_sorted. apply (sort_desc_sorted snd).
  - exists (sort_desc snd samples). split; [|reflexivity].
    split; [apply sort_desc_perm|].
    split; [apply (sort_desc_sorted snd)|].
    intros v. apply (sort_desc_stable snd).
Qed.

Lemma name_or_dash_not_empty (proc : process) : name_or_dash proc <> "".
Proof.
  unfold name_or_dash. destruct (info_name proc) as [name|]; [|discriminate].
  destruct (String.eqb name "") eqn:E; [discriminate|].
  intros ->. rewrite String.eqb_refl in E. discriminate.
Qed.




End RankingFacts.

(** X9: whatever [n] is, the processes a top list leaves out have no
    value above a value in the list: list and remainder together
    rearrange the samples of the scan, and every value in the remainder
    is at most every value in the list. *)
Theorem top_leaves_out_nothing_larger (n : Z) (scan : list process) :
  leaves_out_nothing_larger
    (map scrape_metrics_psutil_reduced.cpu_sample scan)
    (scrape_metrics_psutil_reduced.get_top_processes_by_cpu n scan)
  /\ leaves_out_nothing_larger
       (map scrape_metrics_psutil_reduced.mem_sample scan)
       (scrape_metrics_psutil_reduced.get_top_processes_by_memory n scan)
  /\ leaves_out_nothing_larger
       (map t_scrape_metrics_psutil.cpu_sample scan)
       (t_scrape_metrics_psutil.get_top_processes_by_cpu n scan)
  /\ leaves_out_nothing_larger
       (map t_scrape_metrics_psutil.mem_sample scan)
       (t_scrape_metrics_psutil.get_top_processes_by_memory n scan).
Proof. repeat split; apply top_slice_leaves_out_nothing_larger. Qed.

(** X10: a negative [n] does not give an empty list: the functions
    return the ranking without its last [-n] entries (nothing only when
    [-n] reaches the number of processes), because [processes[:n]]
    counts a negative bound from the end. *)
Theorem top_with_negative_bound (n : Z) (scan : list process) :
  n < 0 ->
  RankSpec.ranked_prefix (List.length scan - Z.to_nat (- n))
    (map scrape_metrics_psutil_reduced.cpu_sample scan)
    (scrape_metrics_psutil_reduced.get_top_processes_by_cpu n scan)
  /\ RankSpec.ranked_prefix (List.length scan - Z.to_nat (- n))
       (map scrape_metrics_psutil_reduced.mem_sample scan)
       (scrape_metrics_psutil_reduced.get_top_processes_by_memory n scan)
  /\ List.length
       (scrape_metrics_psutil_reduced.get_top_processes_by_cpu n scan)
     = (List.length scan - Z.to_nat (- n))%nat.
Proof.
  intros Hn.
  assert (Hcount : forall len, slice_count n len = (len - Z.to_nat (- n))%nat).
  { intros len. unfold slice_count.
    destruct (Z.ltb_spec n 0); [reflexivity|lia]. }
  pose proof (top_slice_any_bound n
                (map scrape_metrics_psutil_reduced.cpu_sample scan)) as Hc.
  pose proof (top_slice_any_bound n
                (map scrape_metrics_psutil_reduced.mem_sample scan)) as Hm.
  rewrite Hcount, length_map in Hc, Hm.
  split; [exact Hc|]. split; [exact Hm|].
  destruct Hc as [Hlen _].
  unfold scrape_metrics_psutil_reduced.get_top_processes_by_cpu.
  rewrite Hlen, length_map. apply Nat.min_l. lia.
Qed.

Lemma top_with_negative_bound_witness :
  scrape_metrics_psutil_reduced.get_top_processes_by_cpu (-1)
    [vanished_process; idle_process; nginx_process]
  = [("nginx", 9 # 2); ("-.", 0%Q)]
  /\ List.length
       (scrape_metrics_psutil_reduced.get_top_processes_by_cpu (-1)
          [vanished_process; idle_process; nginx_process])
     = 2%nat.
Proof.
  split; [reflexivity|].
  apply (top_with_negative_bound (-1)
           [vanished_process; idle_process; nginx_process]).
  lia.
Defined.



(** X12: with five or more processes in the scan nothing is padded:
    the padding loop of [main] leaves the top five as they are, and
    each of the five is the sample of a scanned process. *)
Theorem five_processes_need_no_padding (scan : list process) :
  (5 <= List.length scan)%nat ->
  scrape_metrics_psutil_reduced.pad
    (scrape_metrics_psutil_reduced.get_top_processes_by_cpu 5 scan)
  = scrape_metrics_psutil_reduced.get_top_processes_by_cpu 5 scan
  /\ List.length
       (scrape_metrics_psutil_reduced.get_top_processes_by_cpu 5 scan)
     = 5%nat
  /\ forall entry,
       In entry
         (scrape_metrics_psutil_reduced.pad
            (scrape_metrics_psutil_reduced.get_top_processes_by_cpu 5 scan)) ->
       In entry (map scrape_metrics_psutil_reduced.cpu_sample scan).
Proof.
  intros Hscan.
  assert (Hlen : List.length
            (scrape_metrics_psutil_reduced.get_top_processes_by_cpu 5 scan)
          = 5%nat).
  { unfold scrape_metrics_psutil_reduced.get_top_processes_by_cpu.
    rewrite slice_to_firstn, length_firstn, sort_desc_length, length_map.
    unfold slice_count. cbn [Z.ltb Z.compare]. change (Z.to_nat 5) with 5%nat.
    rewrite (Nat.min_l 5) by exact Hscan. apply Nat.min_l. exact Hscan. }
  assert (Hpad : scrape_metrics_psutil_reduced.pad
            (scrape_metrics_psutil_reduced.get_top_processes_by_cpu 5 scan)
          = scrape_metrics_psutil_reduced.get_top_processes_by_cpu 5 scan).
  { rewrite pad_appends, Hlen. cbn [Nat.sub repeat]. apply app_nil_r. }
  split; [exact Hpad|]. split; [exact Hlen|].
  intros entry Hin. rewrite Hpad in Hin.
  unfold scrape_metrics_psutil_reduced.get_top_processes_by_cpu in Hin.
  apply slice_to_incl in Hin.
  exact (Permutation_in _ (sort_desc_perm snd _) Hin).
Qed.

Lemma five_processes_need_no_padding_witness :
  scrape_metrics_psutil_reduced.pad
    (scrape_metrics_psutil_reduced.get_top_processes_by_cpu 5
       [idle_process; nginx_process; vanished_process; nginx_process;
        idle_process; nginx_process])
  = [("nginx", 9 # 2); ("nginx", 9 # 2); ("nginx", 9 # 2);
     ("cron", 0%Q); ("-.", 0%Q)].
Proof.
  rewrite (proj1 (five_processes_need_no_padding
                    [idle_process; nginx_process; vanished_process;
                     nginx_process; idle_process; nginx_process]
                    ltac:(cbn; lia))).
  reflexivity.
Defined.

(** ** The record of the other variants *)

Section OtherRecords.

Import PyFormat.

Lemma top_fields_length (top : list (string * string)) :
  List.length (get_metrics_psutil.top_fields top) = 10%nat.
Proof.
  unfold get_metrics_psutil.top_fields. cbn [seq flat_map].
  repeat (destruct (nth_error top _) as [[? ?]|]); reflexivity.
Qed.


Lemma row_items_length (now_str : string) (cpu mem : Q)
    (top_cpu top_mem : list (string * string)) (active : Z) (rps : Q) :
  List.length (get_metrics_psutil.row_items now_str cpu mem top_cpu top_mem
                 active rps) = 25%nat.
Proof.
  unfold get_metrics_psutil.row_items.
  rewrite !length_app, !top_fields_length. reflexivity.
Qed.




End OtherRecords.

Section RecordShape.





End RecordShape.



(** ** Runs of the psutil variants *)

Section PsutilRuns.

Import scrape_metrics_psutil_reduced.





Lemma t_cols_same (top : list sample) :
  Forall (fun entry => fst entry <> "") top ->
  t_scrape_metrics_psutil.cols top = cols top.
Proof.
  unfold t_scrape_metrics_psutil.cols, cols.
  induction 1 as [|entry top Hentry _ IH]; [reflexivity|].
  cbn [flat_map]. rewrite IH.
  destruct (String.eqb (fst entry) "") eqn:E; [|reflexivity].
  apply String.eqb_eq in E. contradiction.
Qed.

Lemma padded_names_not_empty (sample_of : process -> sample)
    (scan : list process) :
  (forall proc, fst (sample_of proc) = name_or_dash proc
                \/ sample_of proc = sentinel) ->
  Forall (fun entry => fst entry <> "")
         (pad (Py.slice_to 5 (sort_desc snd (map sample_of scan)))).
Proof.
  intros Hname. apply Forall_forall. intros entry Hin.
  apply padded_entry_origin in Hin as [-> | Hin]; [discriminate|].
  apply in_map_iff in Hin as (proc & <- & _).
  destruct (Hname proc) as [-> | ->];
    [apply name_or_dash_not_empty|discriminate].
Qed.


End PsutilRuns.

(** X14: on the same observations [main] of [t_scrape_metrics_psutil.py]
    returns what [main] of [scrape_metrics_psutil_reduced.py] returns,
    line and state file, as long as its way of reading the memory of a
    process gives the sample the other way gives.  The second defence
    against empty names in its record never comes into play. *)
Theorem t_psutil_main_agrees_with_reduced (run : invocation) :
  (forall proc, In proc (mem_scan run) ->
     t_scrape_metrics_psutil.mem_sample proc
     = scrape_metrics_psutil_reduced.mem_sample proc) ->
  t_scrape_metrics_psutil.main run = scrape_metrics_psutil_reduced.main run.
Proof.
  intros Hmem.
  unfold t_scrape_metrics_psutil.main, scrape_metrics_psutil_reduced.main.
  assert (Hstatus : get_metrics_psutil.get_nginx_stub_status (response run)
                    = scrape_metrics_psutil_reduced.get_nginx_stub_status
                        (response run)).
  { destruct (response run) as [|body]; [reflexivity|].
    rewrite psutil_status_refines, reduced_status_refines. reflexivity. }
  rewrite Hstatus.
  assert (Htop : t_scrape_metrics_psutil.get_top_processes_by_memory 5
                   (mem_scan run)
                 = scrape_metrics_psutil_reduced.get_top_processes_by_memory 5
                     (mem_scan run)).
  { unfold t_scrape_metrics_psutil.get_top_processes_by_memory,
      scrape_metrics_psutil_reduced.get_top_processes_by_memory.
    rewrite (map_ext_in _ _ _ Hmem). reflexivity. }
  rewrite Htop.
  destruct (scrape_metrics_psutil_reduced.get_nginx_stub_status (response run))
    as [[active total]|e]; [|reflexivity].
  cbn [bind]. rewrite <- reduced_rate_is_the_same.
  destruct (scrape_metrics_psutil_reduced.compute_requests_per_second
              total (now run) (file run)) as [[rps after]|e]; [|reflexivity].
  cbn [bind]. unfold t_scrape_metrics_psutil.row_data,
    scrape_metrics_psutil_reduced.row_data.
  rewrite !t_cols_same; [reflexivity| |].
  - apply padded_names_not_empty. exact mem_sample_name.
  - apply (padded_names_not_empty scrape_metrics_psutil_reduced.cpu_sample).
    exact cpu_sample_name.
Qed.

Lemma t_psutil_main_agrees_with_reduced_witness :
  t_scrape_metrics_psutil.main run_from_the_spec
  = scrape_metrics_psutil_reduced.main run_from_the_spec.
Proof.
  apply (t_psutil_main_agrees_with_reduced run_from_the_spec).
  intros proc [<- | []]. reflexivity.
Defined.



(** ** The tables of [top]: CPU table, failures, sibling variants *)

Section TableFacts.

Import TableSpec.
Import t_scrape_metrics_top.

Lemma header_is_no_cpu_line (line : string) :
  is_header line = true -> cpu_line_pattern (Py.strip line) = None.
Proof.
  unfold is_header, cpu_line_pattern, expect.
  destruct (Py.strip line) as [|c s]; [discriminate|].
  cbn [Py.startswith]. intros H. apply andb_true_iff in H as [Hc _].
  apply Ascii.eqb_eq in Hc. subst c. reflexivity.
Qed.

Lemma usage_of_group_value (g : string) :
  usage_of_group g = Ret (cpu_group_value g).
Proof.
  unfold usage_of_group, cpu_group_value.
  destruct (float_raises_only_ValueError g) as [[x ->] | ->]; reflexivity.
Qed.

Lemma scan_cpu_spec (lines : list string) (i : nat) (usage : pyfloat) :
  scan_cpu lines i usage
  = Ret (fold_left cpu_step (before_header lines) usage,
         found_index i lines).
Proof.
  revert i usage. induction lines as [|line rest IH]; intros i usage.
  - reflexivity.
  - cbn [scan_cpu before_header]. fold (is_header line).
    destruct (is_header line) eqn:Hh.
    + rewrite (header_is_no_cpu_line _ Hh). cbn [bind fold_left].
      rewrite found_index_header by exact Hh. reflexivity.
    + rewrite found_index_step by exact Hh. cbn [fold_left].
      unfold cpu_step at 2.
      destruct (cpu_line_pattern (Py.strip line)) as [g|].
      * rewrite usage_of_group_value. cbn [bind]. apply IH.
      * cbn [bind]. apply IH.
Qed.

Lemma header_loop_spec (lines : list string) (i : nat) :
  scrape_metrics_top.header_loop lines i = found_index i lines.
Proof.
  revert i. induction lines as [|line rest IH]; intros i; [reflexivity|].
  cbn [scrape_metrics_top.header_loop]. fold (is_header line).
  destruct (is_header line) eqn:Hh.
  - rewrite found_index_header by exact Hh. reflexivity.
  - rewrite found_index_step by exact Hh. apply IH.
Qed.

(** One summary line either gives a usage or divides by a zero total. *)
Lemma usage_of_groups_cases (line : string)
    (groups : string * string * string * string) :
  mem_line_pattern (Py.strip line) = Some groups ->
  (exists usage, usage_of_groups groups = Ret usage)
  \/ (usage_of_groups groups = Raise ZeroDivisionError
      /\ zero_total_line line).
Proof.
  destruct groups as [[[g1 g2] g3] g4]. intros Hm. unfold usage_of_groups.
  destruct (float_raises_only_ValueError g1) as [[x1 H1] | H1];
    rewrite H1; [|left; eexists; reflexivity].
  destruct (float_raises_only_ValueError g2) as [[x2 H2] | H2];
    rewrite H2; [|left; eexists; reflexivity].
  destruct (float_raises_only_ValueError g3) as [[x3 H3] | H3];
    rewrite H3; [|left; eexists; reflexivity].
  destruct (float_raises_only_ValueError g4) as [[x4 H4] | H4];
    rewrite H4; [|left; eexists; reflexivity].
  destruct x1 as [total| |]; cbn [bind PyFloat.div].
  - destruct (Qeq_bool total 0) eqn:E.
    + right. split; [reflexivity|].
      apply Qeq_bool_iff in E.
      exists g1, g2, g3, g4, total, x2, x3, x4. auto 10.
    + left. destruct x3; eexists; reflexivity.
  - left. destruct x3; eexists; reflexivity.
  - left. eexists; reflexivity.
Qed.

Lemma zero_total_line_raises (line : string)
    (groups : string * string * string * string) :
  mem_line_pattern (Py.strip line) = Some groups ->
  zero_total_line line ->
  usage_of_groups groups = Raise ZeroDivisionError.
Proof.
  intros Hm (g1 & g2 & g3 & g4 & total & free & used & buff
             & Hm' & H1 & Hz & H2 & H3 & H4).
  rewrite Hm in Hm'. injection Hm' as ->.
  exact (usage_zero_total _ _ _ _ _ _ _ _ H1 H2 H3 H4 Hz).
Qed.

Lemma scan_returns_index (lines : list string) (i : nat)
    (usage found : pyfloat) (index : nat) :
  scan lines i usage = Ret (found, index) -> index = found_index i lines.
Proof.
  revert i usage. induction lines as [|line rest IH]; intros i usage.
  - cbn. intros H. injection H as _ <-. reflexivity.
  - cbn [scan]. fold (is_header line).
    destruct (match mem_line_pattern (Py.strip line) with
              | Some groups => usage_of_groups groups
              | None => Ret usage
              end) as [usage'|e]; [|discriminate].
    cbn [bind]. destruct (is_header line) eqn:Hh.
    + rewrite found_index_header by exact Hh.
      intros H. injection H as _ <-. reflexivity.
    + rewrite found_index_step by exact Hh. apply IH.
Qed.

Lemma scan_raises_only_zero_division (lines : list string) (i : nat)
    (usage : pyfloat) (e : exn) :
  scan lines i usage = Raise e ->
  e = ZeroDivisionError
  /\ exists line, In line (before_header lines) /\ zero_total_line line.
Proof.
  revert i usage. induction lines as [|line rest IH]; intros i usage.
  - discriminate.
  - cbn [scan before_header]. fold (is_header line).
    destruct (is_header line) eqn:Hh.
    + rewrite (header_is_no_summary _ Hh). cbn [bind]. discriminate.
    + destruct (mem_line_pattern (Py.strip line)) as [groups|] eqn:Hm.
      * destruct (usage_of_groups_cases line groups Hm)
          as [[found ->] | [-> Hzero]]; cbn [bind].
        -- intros H. destruct (IH _ _ H) as [-> (l & Hl & Hz)].
           split; [reflexivity|]. exists l. split; [right; exact Hl|exact Hz].
        -- intros H. injection H as <-. split; [reflexivity|].
           exists line. split; [left; reflexivity|exact Hzero].
      * cbn [bind]. intros H. destruct (IH _ _ H) as [-> (l & Hl & Hz)].
        split; [reflexivity|]. exists l. split; [right; exact Hl|exact Hz].
Qed.

Lemma scan_meets_zero_total (lines : list string) (line : string) :
  In line (before_header lines) -> zero_total_line line ->
  forall i usage, scan lines i usage = Raise ZeroDivisionError.
Proof.
  induction lines as [|h rest IH]; [contradiction|].
  cbn [before_header]. destruct (is_header h) eqn:Hh; [contradiction|].
  intros Hin Hzero i usage. cbn [scan]. fold (is_header h). rewrite Hh.
  destruct (mem_line_pattern (Py.strip h)) as [groups|] eqn:Hm.
  - destruct (usage_of_groups_cases h groups Hm)
      as [[found Hfound] | [-> _]]; [|reflexivity].
    rewrite Hfound. cbn [bind]. destruct Hin as [<- | Hin].
    + rewrite (zero_total_line_raises h groups Hm Hzero) in Hfound.
      discriminate.
    + apply IH; assumption.
  - cbn [bind]. destruct Hin as [<- | Hin].
    + destruct Hzero as (g1 & g2 & g3 & g4 & ? & ? & ? & ? & Hm' & _).
      rewrite Hm in Hm'. discriminate.
    + apply IH; assumption.
Qed.

Lemma process_row_at_most_one (line : string) :
  (List.length (process_row line) <= 1)%nat.
Proof.
  unfold process_row.
  destruct (List.length (Py.split_max 11 line) <? 12)%nat; cbn; lia.
Qed.

Lemma cpu_process_row_at_most_one (line : string) :
  (List.length (cpu_process_row line) <= 1)%nat.
Proof.
  unfold cpu_process_row.
  destruct (List.length (Py.split_max 11 line) <? 12)%nat; cbn; lia.
Qed.

Lemma flat_map_at_most {A B : Type} (f : A -> list B) (l : list A) :
  (forall a, (List.length (f a) <= 1)%nat) ->
  (List.length (flat_map f l) <= List.length l)%nat.
Proof.
  intros Hf. induction l as [|a l IH]; cbn; [lia|].
  rewrite length_app. specialize (Hf a). lia.
Qed.

Lemma rows_at_most_five {B : Type} (f : string -> list B) (k : nat)
    (output : list string) :
  (forall a, (List.length (f a) <= 1)%nat) ->
  (List.length (flat_map f (firstn 5 (skipn k output))) <= 5)%nat.
Proof.
  intros Hf. eapply Nat.le_trans; [apply flat_map_at_most, Hf|].
  rewrite length_firstn. apply Nat.le_min_l.
Qed.

End TableFacts.

Section TableTheorems.

Import TableSpec.
Import t_scrape_metrics_top.

Lemma fold_cpu_step_no_match (lines : list string) (usage : pyfloat) :
  (forall l, In l lines -> cpu_line_pattern (Py.strip l) = None) ->
  fold_left cpu_step lines usage = usage.
Proof.
  revert usage. induction lines as [|line rest IH]; intros usage Hnone;
    [reflexivity|].
  cbn [fold_left]. unfold cpu_step at 2.
  rewrite (Hnone line) by (left; reflexivity).
  apply IH. intros l Hl. apply Hnone. right. exact Hl.
Qed.

Lemma get_top_cpu_info_spec (output : list string) :
  get_top_cpu_info output
  = Ret (last_cpu_value (before_header output), cpu_rows output).
Proof.
  unfold get_top_cpu_info. rewrite scan_cpu_spec. reflexivity.
Qed.

Lemma get_top_mem_info_rows (output : list string) (usage : pyfloat)
    (top : list (string * string)) :
  get_top_mem_info output = Ret (usage, top) -> top = rows output.
Proof.
  unfold get_top_mem_info.
  destruct (scan output 0 (Finite 0)) as [[found index]|e] eqn:Hscan;
    [|discriminate].
  cbn [bind]. intros H. injection H as _ <-.
  rewrite (scan_returns_index _ _ _ _ _ Hscan). reflexivity.
Qed.

Lemma scrape_mem_rows (mem_usage : Q) (output : list string) :
  scrape_metrics_top.get_top_mem_info mem_usage output
  = (mem_usage, rows output).
Proof.
  unfold scrape_metrics_top.get_top_mem_info.
  rewrite header_loop_spec. reflexivity.
Qed.

Lemma scrape_cpu_rows (cpu_usage : Q) (output : list string) :
  scrape_metrics_top.get_top_cpu_info cpu_usage output
  = (cpu_usage, cpu_rows output).
Proof.
  unfold scrape_metrics_top.get_top_cpu_info.
  rewrite header_loop_spec. reflexivity.
Qed.

Lemma found_index_position (output : list string) :
  found_index 0 output
  = match header_position output with Some k => k | None => 0%nat end.
Proof. reflexivity. Qed.

End TableTheorems.

(** X16: [get_top_cpu_info] of [t_scrape_metrics_top.py] returns on
    every table; nothing it does can raise.  Its aggregate is the value
    of the last [%Cpu(s)] line in front of the header: [0.0] when there
    is no such line, or when [float()] rejects what stands before
    [us,].  It returns at most five rows. *)
Theorem cpu_table_always_returns (output : list string) :
  t_scrape_metrics_top.get_top_cpu_info output
  = Ret (last_cpu_value (TableSpec.before_header output), cpu_rows output)
  /\ ((forall line, In line (TableSpec.before_header output) ->
         t_scrape_metrics_top.cpu_line_pattern (Py.strip line) = None) ->
      last_cpu_value (TableSpec.before_header output) = Finite 0)
  /\ (forall pre line post g,
        TableSpec.before_header output = (pre ++ line :: post)%list ->
        t_scrape_metrics_top.cpu_line_pattern (Py.strip line) = Some g ->
        (forall l, In l post ->
           t_scrape_metrics_top.cpu_line_pattern (Py.strip l) = None) ->
        (forall x, PyFloat.float g = Ret x ->
           last_cpu_value (TableSpec.before_header output) = x)
        /\ (PyFloat.float g = Raise ValueError ->
            last_cpu_value (TableSpec.before_header output) = Finite 0))
  /\ (List.length (cpu_rows output) <= 5)%nat.
Proof.
  split; [apply get_top_cpu_info_spec|]. split; [|split].
  - intros Hnone. apply fold_cpu_step_no_match. exact Hnone.
  - intros pre line post g Hbefore Hg Hpost.
    assert (Hlast : last_cpu_value (TableSpec.before_header output)
                    = cpu_group_value g).
    { unfold last_cpu_value. rewrite Hbefore, fold_left_app.
      cbn [fold_left]. rewrite fold_cpu_step_no_match by exact Hpost.
      unfold cpu_step. rewrite Hg. reflexivity. }
    rewrite Hlast. unfold cpu_group_value.
    split; [intros x ->; reflexivity|intros ->; reflexivity].
  - apply rows_at_most_five. exact cpu_process_row_at_most_one.
Qed.

Lemma cpu_table_always_returns_witness :
  t_scrape_metrics_top.get_top_cpu_info cpu_table_of_top
  = Ret (Finite (34 # 10), [("nginx: worker process", "0.7")]).
Proof.
  destruct (cpu_table_always_returns cpu_table_of_top)
    as (Hrun & _ & Hlast & _).
  rewrite Hrun.
  rewrite (proj1 (Hlast [nth 0 cpu_table_of_top ""] (nth 1 cpu_table_of_top "")
                    [nth 2 cpu_table_of_top ""] "3.4" eq_refl eq_refl
                    ltac:(intros l [<- | []]; reflexivity))
             (Finite (34 # 10)) eq_refl).
  reflexivity.
Defined.

(** X17: the only way [get_top_mem_info] of [t_scrape_metrics_top.py]
    fails is a division by a zero total: if it raises, the exception is
    [ZeroDivisionError] and a summary line in front of the header has
    four quantities [float()] accepts and a total of zero; and every
    table with such a line makes it raise. *)
Theorem mem_table_fails_only_on_zero_total (output : list string) :
  (forall e,
     t_scrape_metrics_top.get_top_mem_info output = Raise e ->
     e = ZeroDivisionError
     /\ exists line,
          In line (TableSpec.before_header output) /\ zero_total_line line)
  /\ (forall line,
        In line (TableSpec.before_header output) -> zero_total_line line ->
        t_scrape_metrics_top.get_top_mem_info output
        = Raise ZeroDivisionError).
Proof.
  split.
  - intros e. unfold t_scrape_metrics_top.get_top_mem_info.
    destruct (t_scrape_metrics_top.scan output 0 (Finite 0))
      as [[found index]|e'] eqn:Hscan; cbn [bind]; [discriminate|].
    intros H. injection H as <-.
    exact (scan_raises_only_zero_division _ _ _ _ Hscan).
  - intros line Hin Hzero. unfold t_scrape_metrics_top.get_top_mem_info.
    rewrite (scan_meets_zero_total output line Hin Hzero). reflexivity.
Qed.

Lemma mem_table_fails_only_on_zero_total_witness :
  t_scrape_metrics_top.get_top_mem_info table_with_zero_total
  = Raise ZeroDivisionError.
Proof.
  apply (proj2 (mem_table_fails_only_on_zero_total table_with_zero_total)
           (nth 0 table_with_zero_total "")).
  - left. reflexivity.
  - exists "0.0", "0.0", "0.0", "0.0", (0 # 10),
      (Finite (0 # 10)), (Finite (0 # 10)), (Finite (0 # 10)).
    repeat split; vm_compute; reflexivity.
Defined.

(** X18: [scrape_metrics_top.py], which takes the aggregates from
    psutil, reads the same rows off a table as
    [t_scrape_metrics_top.py]: the CPU rows always, the memory rows
    whenever the latter returns. *)
Theorem top_variants_read_the_same_rows
    (cpu_usage mem_usage : Q) (output : list string) :
  (exists usage,
     t_scrape_metrics_top.get_top_cpu_info output
     = Ret (usage,
            snd (scrape_metrics_top.get_top_cpu_info cpu_usage output)))
  /\ (forall usage top,
        t_scrape_metrics_top.get_top_mem_info output = Ret (usage, top) ->
        top = snd (scrape_metrics_top.get_top_mem_info mem_usage output))
  /\ fst (scrape_metrics_top.get_top_cpu_info cpu_usage output) = cpu_usage
  /\ fst (scrape_metrics_top.get_top_mem_info mem_usage output) = mem_usage.
Proof.
  rewrite scrape_cpu_rows, scrape_mem_rows. cbn [fst snd].
  split; [|split; [|split; reflexivity]].
  - eexists. apply get_top_cpu_info_spec.
  - intros usage top. apply get_top_mem_info_rows.
Qed.

Lemma top_variants_read_the_same_rows_witness :
  snd (scrape_metrics_top.get_top_mem_info (40 # 1) table_of_top)
  = [("nginx: worker process", "1.5")].
Proof.
  symmetry.
  apply (proj1 (proj2 (top_variants_read_the_same_rows 0 (40 # 1) table_of_top))
           (Finite ((16491 # 10) / (158529 # 10) * 100))).
  vm_compute. reflexivity.
Defined.

(** X19: the rows are read from the five lines after the first line
    that starts with [PID] and nowhere else, so there are at most five
    of them, fewer when a line has fewer than twelve columns; a table
    without such a line is read as if its first line were the header. *)
Theorem rows_follow_the_header (mem_usage : Q) (output : list string) :
  (List.length (snd (scrape_metrics_top.get_top_mem_info mem_usage output))
   <= 5)%nat
  /\ (forall k, TableSpec.header_position output = Some k ->
        snd (scrape_metrics_top.get_top_mem_info mem_usage output)
        = flat_map t_scrape_metrics_top.process_row
            (firstn 5 (skipn (k + 1) output)))
  /\ (TableSpec.header_position output = None ->
      snd (scrape_metrics_top.get_top_mem_info mem_usage output)
      = flat_map t_scrape_metrics_top.process_row
          (firstn 5 (skipn 1 output)))
  /\ (forall usage top,
        t_scrape_metrics_top.get_top_mem_info output = Ret (usage, top) ->
        (List.length top <= 5)%nat
        /\ top = snd (scrape_metrics_top.get_top_mem_info mem_usage output)).
Proof.
  rewrite scrape_mem_rows. cbn [snd]. unfold TableSpec.rows.
  split; [apply rows_at_most_five; exact process_row_at_most_one|].
  split; [intros k ->; reflexivity|].
  split; [intros ->; reflexivity|].
  intros usage top Hrun. rewrite (get_top_mem_info_rows _ _ _ Hrun).
  split; [|reflexivity].
  apply rows_at_most_five. exact process_row_at_most_one.
Qed.

Lemma rows_follow_the_header_witness :
  snd (scrape_metrics_top.get_top_mem_info (40 # 1)
         ["   1234 www-data  20   0  143220  12344   6001 S   0.7   1.5   0:01.23 nginx";
          "   1235 www-data  20   0  143220  12344   6001 S   0.1   0.5   0:00.10 cron -f"])
  = [("cron -f", "0.5")].
Proof.
  rewrite (proj1 (proj2 (proj2 (rows_follow_the_header (40 # 1)
             ["   1234 www-data  20   0  143220  12344   6001 S   0.7   1.5   0:01.23 nginx";
              "   1235 www-data  20   0  143220  12344   6001 S   0.1   0.5   0:00.10 cron -f"])))
             eq_refl).
  reflexivity.
Defined.

(** ** The columns of a table line *)

Lemma split_max_skips_space (m : nat) (lead s : string) :
  all_space lead = true ->
  Py.split_max_from m false (lead ++ s) = Py.split_max_from m false s.
Proof.
  induction lead as [|c lead IH]; [reflexivity|].
  cbn [all_space]. intros H. apply andb_true_iff in H as [Hc Hlead].
  cbn [append Py.split_max_from]. rewrite Hc. exact (IH Hlead).
Qed.

Lemma split_max_closes_field (m : nat) (token gap s : string) (c : ascii) :
  no_space token = true ->
  negb (String.eqb gap "") && all_space gap = true ->
  Py.push_char c (token ++ gap ++ s)
    (Py.split_max_from m true (token ++ gap ++ s))
  = String c token :: Py.split_max_from m false s.
Proof.
  intros Htoken Hgap. apply andb_true_iff in Hgap as [Hne Hgap].
  destruct gap as [|sp gap]; [discriminate|].
  cbn [all_space] in Hgap. apply andb_true_iff in Hgap as [Hsp Hgap].
  remember (String sp gap ++ s) as tail eqn:Htail.
  induction token as [|c' token IH] in c, Htoken |- *.
  - subst tail. cbn [append Py.split_max_from]. rewrite Hsp.
    rewrite split_max_skips_space by exact Hgap.
    unfold Py.push_char. rewrite Hsp.
    destruct (Py.split_max_from m false s); reflexivity.
  - cbn [no_space] in Htoken. apply andb_true_iff in Htoken as [Hc' Htoken].
    apply negb_true_iff in Hc'.
    cbn [append Py.split_max_from]. rewrite Hc'.
    rewrite (IH c' Htoken). unfold Py.push_char. rewrite Hc'. reflexivity.
Qed.

Lemma split_max_cuts_cell (m : nat) (cell : string * string) (s : string) :
  is_cell cell = true ->
  Py.split_max_from (S m) false (fst cell ++ snd cell ++ s)
  = fst cell :: Py.split_max_from m false s.
Proof.
  destruct cell as [token gap]. unfold is_cell. cbn [fst snd]. intros H.
  apply andb_true_iff in H as [H Hspace].
  apply andb_true_iff in H as [H Hne].
  apply andb_true_iff in H as [Hnonempty Htoken].
  destruct token as [|c token]; [discriminate|].
  cbn [no_space] in Htoken. apply andb_true_iff in Htoken as [Hc Htoken].
  apply negb_true_iff in Hc.
  cbn [append Py.split_max_from]. rewrite Hc.
  apply split_max_closes_field; [exact Htoken|].
  rewrite Hne, Hspace. reflexivity.
Qed.

Lemma split_max_cuts_cells (m : nat) (cells : list (string * string))
    (rest : string) :
  forallb is_cell cells = true ->
  Py.split_max_from (List.length cells + m) false (cells_text cells rest)
  = (map fst cells ++ Py.split_max_from m false rest)%list.
Proof.
  induction cells as [|[token gap] cells IH]; [reflexivity|].
  cbn [forallb]. intros H. apply andb_true_iff in H as [Hcell Hcells].
  cbn [List.length Nat.add cells_text map app].
  rewrite (split_max_cuts_cell _ (token, gap) _ Hcell).
  rewrite (IH Hcells). reflexivity.
Qed.

Lemma eleven_entries {A : Type} (l : list A) :
  List.length l = 11%nat ->
  exists a b c d e f g h i j k, l = [a; b; c; d; e; f; g; h; i; j; k].
Proof.
  destruct l as [|a [|b [|c [|d [|e [|f [|g [|h [|i [|j [|k [|x l]]]]]]]]]]]];
    cbn; try discriminate.
  intros _. repeat eexists.
Qed.

(** X20: a table line of eleven columns and a command is read whole:
    white space in front is dropped, the command is everything after
    the eleventh gap, with the spaces it holds and those that follow
    it, and the value is column 10 for the memory table and column 9
    for the CPU table.  A line of eleven columns or fewer and no
    command gives no row. *)
Theorem table_line_is_read_by_columns
    (lead : string) (cells : list (string * string))
    (first : ascii) (command : string) :
  all_space lead = true ->
  forallb is_cell cells = true ->
  Py.isspace first = false ->
  (List.length cells = 11%nat ->
   t_scrape_metrics_top.process_row
     (lead ++ cells_text cells (String first command))
   = [(String first command, fst (nth 9 cells ("", "")))]
   /\ t_scrape_metrics_top.cpu_process_row
        (lead ++ cells_text cells (String first command))
      = [(String first command, fst (nth 8 cells ("", "")))])
  /\ ((List.length cells <= 11)%nat ->
      t_scrape_metrics_top.process_row (lead ++ cells_text cells "") = []
      /\ t_scrape_metrics_top.cpu_process_row (lead ++ cells_text cells "")
         = []).
Proof.
  intros Hlead Hcells Hfirst. split.
  - intros Hlen.
    assert (Hcols : Py.split_max 11
                      (lead ++ cells_text cells (String first command))
                    = (map fst cells ++ [String first command])%list).
    { unfold Py.split_max. rewrite split_max_skips_space by exact Hlead.
      replace 11%nat with (List.length cells + 0)%nat by lia.
      rewrite split_max_cuts_cells by exact Hcells.
      cbn [Py.split_max_from]. rewrite Hfirst. reflexivity. }
    unfold t_scrape_metrics_top.process_row,
      t_scrape_metrics_top.cpu_process_row.
    rewrite Hcols.
    destruct (eleven_entries _ Hlen)
      as (a & b & c & d & e & f & g & h & i & j & k & ->).
    split; reflexivity.
  - intros Hlen.
    assert (Hcols : Py.split_max 11 (lead ++ cells_text cells "")
                    = map fst cells).
    { unfold Py.split_max. rewrite split_max_skips_space by exact Hlead.
      replace 11%nat
        with (List.length cells + (11 - List.length cells))%nat by lia.
      rewrite split_max_cuts_cells by exact Hcells.
      cbn [Py.split_max_from]. apply app_nil_r. }
    unfold t_scrape_metrics_top.process_row,
      t_scrape_metrics_top.cpu_process_row.
    rewrite Hcols, length_map.
    destruct (Nat.ltb_spec (List.length cells) 12); [split; reflexivity|lia].
Qed.

Lemma table_line_is_read_by_columns_witness :
  t_scrape_metrics_top.process_row
    "   1234 www-data  20   0  143220  12344   6001 S   0.7   1.5   0:01.23 nginx: worker process "
  = [("nginx: worker process ", "1.5")].
Proof.
  apply (proj1 (proj1 (table_line_is_read_by_columns "   " top_cells
                         "n" "ginx: worker process "
                         eq_refl eq_refl eq_refl) eq_refl)).
Defined.

(** ** The record of the run that reads both aggregates from [top] *)


